(** * Sky model catalogs: the parser of [beam_errors/sources.py]

    A shallow embedding of the classes [Source], [Patch] and [Skymodel]:
    the sexagesimal coordinate parsers, the two spectral-index brightness
    models and the two-phase catalog reader (header line, then data rows).

    Conventions of the embedding:
    - a Python [str] is a [string]: one [ascii] per character, which stands
      for the code point of that number (the texts are those of code points
      below 256); the text of the file is taken after the translation of its
      line ends to line feeds, as a file opened in text mode gives it;
    - a Python [float] is a primitive binary64 [float]; [float(s)] rounds
      the decimal literal to nearest-even by exact integer arithmetic;
    - a Python [int] is a [Z]; [int(s)] is the one of CPython 3.11, with
      its default limit of 4300 digits;
    - an exception is a value of [exn]; code that can raise returns a
      [result], and [try]/[except] is [try_except];
    - a [dict] keyed by strings is a [gmap string _];
    - the platform's [pow] and [log10] are taken as parameters, behind the
      exact cases that C99 Annex F fixes. *)

From Stdlib Require Import ZArith String Ascii List Bool Lia Floats.
From stdpp Require Import base option gmap strings.
Import ListNotations.

Local Open Scope string_scope.
Local Open Scope Z_scope.

(** ** Exceptions and results *)

Inductive exn_kind : Set :=
| ValueError | KeyError | IndexError | TypeError
| ZeroDivisionError | OverflowError.

(** [Builtin k] is raised by the interpreter or a library (its text is not
    modelled); [Raised k msg] is a [raise] statement of the source. *)
Inductive exn : Set :=
| Builtin (k : exn_kind)
| Raised (k : exn_kind) (msg : string).

Definition kind_of (e : exn) : exn_kind :=
  match e with Builtin k => k | Raised k _ => k end.

#[global] Instance exn_kind_eq_dec : EqDecision exn_kind.
Proof. solve_decision. Defined.

Inductive result (A : Type) : Type :=
| Ok (a : A)
| Raise (e : exn).
Arguments Ok {A} a.
Arguments Raise {A} e.

Definition bind {A B} (r : result A) (k : A -> result B) : result B :=
  match r with Ok a => k a | Raise e => Raise e end.

Notation "x <- r ;; k" := (bind r (fun x => k))
  (at level 100, r at next level, right associativity,
   format "'[v' x  <-  r  ;;  '/' k ']'").

(** [try: r except k: handler]. *)
Definition try_except {A} (r : result A) (k : exn_kind) (handler : result A)
  : result A :=
  match r with
  | Ok a => Ok a
  | Raise e => if decide (kind_of e = k) then handler else Raise e
  end.

Definition succeeds {A} (r : result A) : bool :=
  match r with Ok _ => true | Raise _ => false end.

Definition raises {A} (r : result A) (k : exn_kind) : Prop :=
  exists e, r = Raise e /\ kind_of e = k.

(** ** Python built-ins on strings and lists *)

Module Py.

Definition mem_char (c : ascii) (chars : string) : bool :=
  existsb (Ascii.eqb c) (list_ascii_of_string chars).

(** [s.lstrip(chars)], [s.rstrip(chars)], [s.strip(chars)] *)
Fixpoint lstrip (chars s : string) : string :=
  match s with
  | EmptyString => EmptyString
  | String c r => if mem_char c chars then lstrip chars r else s
  end.

Fixpoint rstrip (chars s : string) : string :=
  match s with
  | EmptyString => EmptyString
  | String c r =>
      match rstrip chars r with
      | EmptyString => if mem_char c chars then EmptyString else String c EmptyString
      | r' => String c r'
      end
  end.

Definition strip (chars s : string) : string := rstrip chars (lstrip chars s).

(** [s.split(sep)] for a one-character separator: never the empty list. *)
Fixpoint split (sep : ascii) (s : string) : list string :=
  match s with
  | EmptyString => [EmptyString]
  | String c r =>
      if Ascii.eqb c sep then EmptyString :: split sep r
      else match split sep r with
           | h :: t => String c h :: t
           | [] => [String c EmptyString]
           end
  end.

(** [s.replace(c, "")] for a one-character [c] *)
Fixpoint remove_char (c : ascii) (s : string) : string :=
  match s with
  | EmptyString => EmptyString
  | String d r => if Ascii.eqb d c then remove_char c r else String d (remove_char c r)
  end.

(** The characters that [lower] changes: [A] to [Z], and the capital
    letters of code points 192 to 222 (215, the multiplication sign, is
    none); each has its small letter 32 places further. *)
Definition is_upper (c : ascii) : bool :=
  let n := nat_of_ascii c in
  ((65 <=? n)%nat && (n <=? 90)%nat)
  || ((192 <=? n)%nat && (n <=? 222)%nat && negb (n =? 215)%nat).

Definition lower_char (c : ascii) : ascii :=
  if is_upper c then ascii_of_nat (nat_of_ascii c + 32) else c.

(** [s.lower()] *)
Fixpoint lower (s : string) : string :=
  match s with
  | EmptyString => EmptyString
  | String c r => String (lower_char c) (lower r)
  end.

(** [s.startswith(p)] *)
Definition startswith (s p : string) : bool := String.prefix p s.

(** [needle in hay] *)
Fixpoint contains (needle hay : string) : bool :=
  String.prefix needle hay ||
  match hay with
  | EmptyString => false
  | String _ r => contains needle r
  end.

(** [c.isdigit()]: the ten decimal digits, and the superscript digits of
    code points 178, 179 and 185. *)
Definition isdigit (c : ascii) : bool :=
  let n := nat_of_ascii c in
  ((48 <=? n)%nat && (n <=? 57)%nat)
  || (n =? 178)%nat || (n =? 179)%nat || (n =? 185)%nat.

(** [c.isspace()] *)
Definition isspace (c : ascii) : bool :=
  let n := nat_of_ascii c in
  (n =? 32)%nat || ((9 <=? n)%nat && (n <=? 13)%nat)
  || ((28 <=? n)%nat && (n <=? 31)%nat)
  || (n =? 133)%nat || (n =? 160)%nat.

(** ["".join(c for c in s if keep(c))] *)
Fixpoint filter_chars (keep : ascii -> bool) (s : string) : string :=
  match s with
  | EmptyString => EmptyString
  | String c r => if keep c then String c (filter_chars keep r) else filter_chars keep r
  end.

(** [sep.join(l)] *)
Definition join (sep : string) (l : list string) : string := String.concat sep l.

(** [l[i]] for an integer [i]: negative indices count from the end. *)
Definition index {A} (l : list A) (i : Z) : result A :=
  let n := Z.of_nat (length l) in
  let j := if i <? 0 then i + n else i in
  if (0 <=? j) && (j <? n) then
    match nth_error l (Z.to_nat j) with
    | Some a => Ok a
    | None => Raise (Builtin IndexError)
    end
  else Raise (Builtin IndexError).

(** [l.index(x)] *)
Fixpoint list_index (x : string) (l : list string) : result Z :=
  match l with
  | [] => Raise (Builtin ValueError)
  | y :: r => if String.eqb y x then Ok 0
              else (i <- list_index x r ;; Ok (i + 1))
  end.

End Py.

(** ** Numbers: [int(s)], [float(s)] and the arithmetic of Python floats *)

Module Num.

(** Whitespace removed by [int] and [float] around their argument: the
    six whitespace characters of C, and the two whitespace characters
    beyond code point 127 (133 and 160), which both functions first turn
    into a space. The separators of code points 28 to 31 are not removed. *)
Definition is_space (c : ascii) : bool :=
  let n := nat_of_ascii c in
  (n =? 32)%nat || ((9 <=? n)%nat && (n <=? 13)%nat)
  || (n =? 133)%nat || (n =? 160)%nat.

(** The digits of a number: [0] to [9] and no other character. *)
Definition is_decimal (c : ascii) : bool :=
  let n := nat_of_ascii c in (48 <=? n)%nat && (n <=? 57)%nat.

Fixpoint lstrip_space (s : string) : string :=
  match s with
  | EmptyString => EmptyString
  | String c r => if is_space c then lstrip_space r else s
  end.

Fixpoint rstrip_space (s : string) : string :=
  match s with
  | EmptyString => EmptyString
  | String c r =>
      match rstrip_space r with
      | EmptyString => if is_space c then EmptyString else String c EmptyString
      | r' => String c r'
      end
  end.

Definition strip_space (s : string) : string := rstrip_space (lstrip_space s).

Definition digit_value (c : ascii) : Z := Z.of_nat (nat_of_ascii c) - 48.

(** A digit part: decimal digits, single underscores allowed between two
    digits. The digits are returned most significant first. *)
Fixpoint digitpart (s : string) : option (list Z) :=
  match s with
  | EmptyString => None
  | String c r =>
      if is_decimal c then
        match r with
        | EmptyString => Some [digit_value c]
        | String "_" r' =>
            match r' with
            | String c' _ =>
                if is_decimal c' then cons (digit_value c) <$> digitpart r' else None
            | EmptyString => None
            end
        | _ => cons (digit_value c) <$> digitpart r
        end
      else None
  end.

Definition digits_value (ds : list Z) : Z :=
  fold_left (fun acc d => 10 * acc + d) ds 0.

(** A leading sign: [(negative, rest)]. *)
Definition split_sign (s : string) : bool * string :=
  match s with
  | String "-" r => (true, r)
  | String "+" r => (false, r)
  | _ => (false, s)
  end.

(** The most digits that [int] converts ([sys.get_int_max_str_digits()]). *)
Definition max_str_digits : Z := 4300.

(** [int(s)] in base 10 *)
Definition int_of_string (s : string) : result Z :=
  let (neg, body) := split_sign (strip_space s) in
  match digitpart body with
  | Some ds =>
      if max_str_digits <? Z.of_nat (length ds) then Raise (Builtin ValueError)
      else Ok (if neg then - digits_value ds else digits_value ds)
  | None => Raise (Builtin ValueError)
  end.

(** *** Correctly rounded conversions to binary64 *)

Definition is_inf (f : float) : bool := PrimFloat.is_infinity f.

Definition signed_zero (neg : bool) : float :=
  if neg then PrimFloat.neg_zero else PrimFloat.zero.

Definition signed_inf (neg : bool) : float :=
  if neg then PrimFloat.neg_infinity else PrimFloat.infinity.

(** The binary64 nearest to [m / d] (ties to even), for [m, d > 0]. *)
Definition round_quotient (neg : bool) (m d : positive) : float :=
  SF2Prim (SFdiv prec emax (S754_finite neg m 0) (S754_finite false d 0)).

(** The binary64 nearest to the integer [z]. *)
Definition round_Z (z : Z) : float :=
  SF2Prim (binary_normalize prec emax z 0 false).

(** The binary64 nearest to [(-1)^neg * m * 10^e10], where [m] has at most
    [len] decimal digits. Literals beyond the range of the format go to an
    infinity or a zero without building the power of ten. *)
Definition round_decimal (neg : bool) (m : Z) (len : Z) (e10 : Z) : float :=
  match m with
  | Zpos p =>
      if 310 <? e10 then signed_inf neg
      else if e10 + len <? -330 then signed_zero neg
      else if 0 <=? e10 then round_Z (if neg then - (m * 10 ^ e10) else m * 10 ^ e10)
      else round_quotient neg p (Z.to_pos (10 ^ (- e10)))
  | _ => signed_zero neg
  end.

(** The exponent part after [e]: an optional sign and a digit part. *)
Definition exponent_of_string (s : string) : option Z :=
  let (neg, body) := split_sign s in
  ds ← digitpart body; Some (if neg then - digits_value ds else digits_value ds).

(** The mantissa part: [D], [D.], [D.D] or [.D]; integer digits and
    fraction digits. *)
Definition mantissa_of_string (s : string) : option (list Z * list Z) :=
  match Py.split "." s with
  | [a] => ds ← digitpart a; Some (ds, [])
  | [a; b] =>
      match a, b with
      | EmptyString, EmptyString => None
      | EmptyString, _ => fs ← digitpart b; Some ([], fs)
      | _, EmptyString => ds ← digitpart a; Some (ds, [])
      | _, _ => ds ← digitpart a; fs ← digitpart b; Some (ds, fs)
      end
  | _ => None
  end.

Definition finite_of_string (neg : bool) (s : string) : option float :=
  match Py.split "e" (Py.lower s) with
  | [m] =>
      '(ds, fs) ← mantissa_of_string m;
      Some (round_decimal neg (digits_value (ds ++ fs))
              (Z.of_nat (length (ds ++ fs))) (- Z.of_nat (length fs)))
  | [m; x] =>
      '(ds, fs) ← mantissa_of_string m;
      e ← exponent_of_string x;
      Some (round_decimal neg (digits_value (ds ++ fs))
              (Z.of_nat (length (ds ++ fs))) (e - Z.of_nat (length fs)))
  | _ => None
  end.

(** [float(s)] *)
Definition float_of_string (s : string) : result float :=
  let (neg, body) := split_sign (strip_space s) in
  let low := Py.lower body in
  if String.eqb low "inf" || String.eqb low "infinity" then Ok (signed_inf neg)
  else if String.eqb low "nan" then Ok PrimFloat.nan
  else match finite_of_string neg body with
       | Some f => Ok f
       | None => Raise (Builtin ValueError)
       end.

(** An [int] used where a [float] is needed ([int + float], [int * float]). *)
Definition float_of_int (z : Z) : result float :=
  let f := round_Z z in
  if is_inf f then Raise (Builtin OverflowError) else Ok f.

(** [a / b] on two [int]s: true division. *)
Definition int_true_div (a b : Z) : result float :=
  match b, a with
  | Z0, _ => Raise (Builtin ZeroDivisionError)
  | _, Z0 => Ok (signed_zero (b <? 0))
  | _, _ =>
      let f := SF2Prim (SFdiv prec emax
                          (S754_finite (a <? 0) (Z.to_pos (Z.abs a)) 0)
                          (S754_finite (b <? 0) (Z.to_pos (Z.abs b)) 0)) in
      if is_inf f then Raise (Builtin OverflowError) else Ok f
  end.

(** [a / b] on two [float]s. *)
Definition float_div (a b : float) : result float :=
  if PrimFloat.eqb b 0 then Raise (Builtin ZeroDivisionError)
  else Ok (a / b)%float.

End Num.

(** ** Python values stored in [Skymodel.items] and passed to [Source] *)

Inductive pyval : Type :=
| PInt (z : Z)
| PFloat (f : float)
| PStr (s : string).

(** ** The platform's mathematical library *)

Record Libm := {
  libm_log10 : float -> float;
  libm_pow : float -> float -> float;
}.

Section WithLibm.

Variable libm : Libm.

(** C's [pow]: the cases fixed by C99 Annex F.9.4.4 that the brightness
    models reach, and the exactly representable [pow(x, 1)]; elsewhere the
    platform's approximation. *)
Definition c_pow (x y : float) : float :=
  if (y =? 0)%float then 1%float
  else if (x =? 1)%float then 1%float
  else if (y =? 1)%float then x
  else libm_pow libm x y.

(** [np.log10(x)] *)
Definition np_log10 (x : float) : float := libm_log10 libm x.

(** [x ** i] for a [float] base and a non-negative [int] exponent, after
    CPython's [float_pow]: the special cases are decided before the
    platform's [pow] is called, and an infinite result of that call is an
    [OverflowError]. *)
Definition float_pow (iv : float) (i : Z) : result float :=
  iw <- Num.float_of_int i ;;
  if (iw =? 0)%float then Ok 1%float
  else if PrimFloat.is_nan iv then Ok iv
  else if PrimFloat.is_infinity iv then Ok (if Z.odd i then iv else PrimFloat.abs iv)
  else if (iv =? 0)%float then Ok (if Z.odd i then iv else 0%float)
  else
    let negate_result := (iv <? 0)%float && Z.odd i in
    let iv' := if (iv <? 0)%float then (- iv)%float else iv in
    if (iv' =? 1)%float then Ok (if negate_result then (-1)%float else 1%float)
    else
      let ix := c_pow iv' iw in
      if PrimFloat.is_infinity ix then Raise (Builtin OverflowError)
      else Ok (if negate_result then (- ix)%float else ix).

(** [frequency / reference_frequency] with a [float] on the left. *)
Definition truediv (a : float) (b : pyval) : result float :=
  match b with
  | PFloat f => Num.float_div a f
  | PInt z => f <- Num.float_of_int z ;; Num.float_div a f
  | PStr _ => Raise (Builtin TypeError)
  end.

(** [sum(term(i, c) for i, c in enumerate(cs))], started at index [i] with
    the partial sum [acc]. *)
Fixpoint sum_terms (term : Z -> string -> result float)
    (i : Z) (cs : list string) (acc : float) : result float :=
  match cs with
  | [] => Ok acc
  | c :: r => t <- term i c ;; sum_terms term (i + 1) r (acc + t)%float
  end.

(** ** class Source *)

Record Source := {
  ra : float;
  dec : float;
  logSI : bool;
  brightness : float;
  reference_frequency : pyval;
  spectral_index : string;
}.

(** [HA, min, sec = s.split(":")] *)
Definition unpack3 (l : list string) : result (string * string * string) :=
  match l with
  | [a; b; c] => Ok (a, b, c)
  | _ => Raise (Builtin ValueError)
  end.

Definition parse_right_ascension (right_ascension_string : string) : result float :=
  let right_ascension_string := Py.strip " " right_ascension_string in
  t <- unpack3 (Py.split ":" right_ascension_string) ;;
  let '(HA, min, sec) := t in
  c0 <- Py.index (list_ascii_of_string HA) 0 ;;
  let sign := if Ascii.eqb c0 "-" then (-1)%float else 1%float in
  h <- Num.int_of_string HA ;;
  m <- Num.int_of_string min ;;
  m4 <- Num.int_true_div m 4 ;;
  h15 <- Num.float_of_int (Z.abs h * 15) ;;
  s <- Num.float_of_string sec ;;
  let right_ascension_degrees := (h15 + m4 + s / 240)%float in
  Ok (sign * right_ascension_degrees)%float.

(** [np.sign(deg)] as a float factor *)
Definition np_sign (deg : Z) : float :=
  match deg with
  | Z0 => 0%float
  | Zpos _ => 1%float
  | Zneg _ => (-1)%float
  end.

Definition parse_declination (declination_string : string) : result float :=
  let declination_string := Py.remove_char " " declination_string in
  let declination_string := Py.strip "+" declination_string in
  let fields := Py.split "." declination_string in
  f0 <- Py.index fields 0 ;;
  deg <- Num.int_of_string f0 ;;
  f1 <- Py.index fields 1 ;;
  min <- Num.int_of_string f1 ;;
  sec <- Num.float_of_string (Py.join "." (skipn 2 fields)) ;;
  m60 <- Num.int_true_div min 60 ;;
  d <- Num.float_of_int (Z.abs deg) ;;
  let declination_degrees := (d + m60 + sec / 3600)%float in
  Ok (np_sign deg * declination_degrees)%float.

Definition logarithmic_spectral_index_brightness
    (frequency brightness : float) (reference_frequency : pyval)
    (spectral_index : string) : result float :=
  let spectral_index := Py.split "," (Py.strip "[]" spectral_index) in
  x <- truediv frequency reference_frequency ;;
  e <- sum_terms
         (fun i c => fc <- Num.float_of_string c ;;
                     Ok (fc * c_pow (np_log10 x) (Num.round_Z i))%float)
         0 spectral_index 0%float ;;
  let spectral_shape := c_pow x e in
  Ok (brightness * spectral_shape)%float.

Definition linear_spectral_index_brightness
    (frequency brightness : float) (reference_frequency : pyval)
    (spectral_index : string) : result float :=
  let spectral_index := Py.split "," (Py.strip "[]" spectral_index) in
  q <- truediv frequency reference_frequency ;;
  let x := (q - 1)%float in
  spectral_shape <- sum_terms
         (fun i c => fc <- Num.float_of_string c ;;
                     p <- float_pow x i ;;
                     Ok (fc * p)%float)
         0 spectral_index 0%float ;;
  Ok (brightness + spectral_shape)%float.

(** [Source.__init__]: the coordinates are parsed at once, the brightness
    function [I] only closes over its four arguments. *)
Definition Source_init (right_ascension declination : string)
    (brightness : float) (reference_frequency : pyval)
    (spectral_index : string) (logSI : bool) : result Source :=
  ra <- parse_right_ascension right_ascension ;;
  dec <- parse_declination declination ;;
  Ok {| ra := ra; dec := dec; logSI := logSI; brightness := brightness;
        reference_frequency := reference_frequency;
        spectral_index := spectral_index |}.

(** [self.I(v)] *)
Definition Source_I (s : Source) (v : float) : result float :=
  if logSI s then
    logarithmic_spectral_index_brightness
      v (brightness s) (reference_frequency s) (spectral_index s)
  else
    linear_spectral_index_brightness
      v (brightness s) (reference_frequency s) (spectral_index s).

(** ** class Patch *)

Record Patch := {
  patch_elements : gmap string Source;
  patch_ra : float;
  patch_dec : float;
}.

Definition Patch_init (patch_right_ascension patch_declination : string)
  : result Patch :=
  ra <- parse_right_ascension patch_right_ascension ;;
  dec <- parse_declination patch_declination ;;
  Ok {| patch_elements := ∅; patch_ra := ra; patch_dec := dec |}.

Definition add_source (self : Patch) (source_name right_ascension declination : string)
    (brightness : float) (reference_frequency : pyval)
    (spectral_index : string) (logSI : bool) : result Patch :=
  src <- Source_init right_ascension declination brightness
           reference_frequency spectral_index logSI ;;
  Ok {| patch_elements := <[source_name := src]> (patch_elements self);
        patch_ra := patch_ra self; patch_dec := patch_dec self |}.

(** ** class Skymodel *)

Record Skymodel := {
  elements : gmap string Patch;
  items : gmap string pyval;
}.

Definition list_of_itemnames : list string :=
  ["name"; "patch"; "ra"; "dec"; "i"; "referencefrequency";
   "spectralindex"; "logarithmicsi"].

(** The default reference frequency of the header cell:
    [_, d = matching_string.split("=")], then the characters of [d] that are
    digits, [e] or [-], then [float]. *)
Definition default_reference_frequency (matching_string : string) : result float :=
  match Py.split "=" matching_string with
  | [_; d] =>
      Num.float_of_string
        (Py.filter_chars
           (fun i => Py.isdigit i || Ascii.eqb i "e" || Ascii.eqb i "-") d)
  | _ => Raise (Builtin ValueError)
  end.

(** One turn of the loop over [list_of_itemnames]. *)
Definition parse_item (fields : list string) (items : gmap string pyval)
    (itemname : string) : result (gmap string pyval) :=
  match List.filter (Py.contains itemname) fields with
  | [] =>
      if String.eqb itemname "spectralindex" || String.eqb itemname "logarithmicsi"
      then Ok items
      else Raise (Raised KeyError ("Item " ++ itemname ++ " missing from sky model"))
  | matching_string :: _ =>
      i <- Py.list_index matching_string fields ;;
      let items := <[itemname := PInt i]> items in
      if String.eqb itemname "referencefrequency" then
        d <- default_reference_frequency matching_string ;;
        Ok (<["default_referencefrequency" := PFloat d]> items)
      else Ok items
  end.

Fixpoint parse_items (fields : list string) (items : gmap string pyval)
    (itemnames : list string) : result (gmap string pyval) :=
  match itemnames with
  | [] => Ok items
  | itemname :: rest =>
      items <- parse_item fields items itemname ;;
      parse_items fields items rest
  end.

Definition parse_formatstring (line : string) : result (gmap string pyval) :=
  let line := Py.lower line in
  let line := Py.remove_char " " line in
  let fields := Py.split "," line in
  parse_items fields ∅ list_of_itemnames.

(** [self.items[itemname]] *)
Definition items_getitem (items : gmap string pyval) (itemname : string)
  : result pyval :=
  match items !! itemname with
  | Some v => Ok v
  | None => Raise (Builtin KeyError)
  end.

(** [inputfields[v]]: a list is indexed by an [int] only. *)
Definition list_getitem (inputfields : list string) (v : pyval) : result string :=
  match v with
  | PInt i => Py.index inputfields i
  | _ => Raise (Builtin TypeError)
  end.

Definition get_item (items : gmap string pyval) (inputfields : list string)
    (itemname : string) : result string :=
  try_except
    (v <- items_getitem items itemname ;;
     s <- list_getitem inputfields v ;;
     Ok (Py.strip " " s))
    IndexError
    (Ok "").

(** The reference frequency of a source row. *)
Definition row_reference_frequency (items : gmap string pyval)
    (inputfields : list string) : result pyval :=
  try_except
    (s <- get_item items inputfields "referencefrequency" ;;
     f <- Num.float_of_string s ;;
     Ok (PFloat f))
    ValueError
    (s <- get_item items inputfields "default_referencefrequency" ;;
     Ok (PStr s)).

(** The [logSI] flag of a source row. *)
Definition row_logSI (items : gmap string pyval) (inputfields : list string)
  : result bool :=
  try_except
    (s <- get_item items inputfields "logarithmicsi" ;;
     Ok (String.eqb s "true"))
    KeyError
    (Ok true).

Definition LF : ascii := ascii_of_nat 10.

(** The body of the loop over the data lines of the file. *)
Definition process_line (items : gmap string pyval)
    (elements : gmap string Patch) (inputline : string)
  : result (gmap string Patch) :=
  let inputline := Py.rstrip (String LF "") inputline in
  if Py.startswith inputline "#" || String.eqb (Py.remove_char "," inputline) ""
  then Ok elements
  else
    let inputfields := Py.split "," inputline in
    let get_item := get_item items inputfields in
    patch_name <- get_item "patch" ;;
    match elements !! patch_name with
    | None =>
        i <- get_item "i" ;;
        if negb (String.eqb i "") then
          Raise (Raised ValueError
                   ("Patch " ++ patch_name
                    ++ " has not been defined before adding sources."))
        else
          patch_right_ascension <- get_item "ra" ;;
          patch_declination <- get_item "dec" ;;
          p <- Patch_init patch_right_ascension patch_declination ;;
          Ok (<[patch_name := p]> elements)
    | Some patch =>
        reference_frequency <- row_reference_frequency items inputfields ;;
        logSI <- row_logSI items inputfields ;;
        source_name <- get_item "name" ;;
        right_ascension <- get_item "ra" ;;
        declination <- get_item "dec" ;;
        i <- get_item "i" ;;
        brightness <- Num.float_of_string i ;;
        spectral_index <- get_item "spectralindex" ;;
        patch <- add_source patch source_name right_ascension declination
                   brightness reference_frequency spectral_index logSI ;;
        Ok (<[patch_name := patch]> elements)
    end.

Fixpoint process_lines (items : gmap string pyval)
    (elements : gmap string Patch) (lines : list string)
  : result (gmap string Patch) :=
  match lines with
  | [] => Ok elements
  | inputline :: rest =>
      elements <- process_line items elements inputline ;;
      process_lines items elements rest
  end.

(** The lines of a text file, each with its line feed. *)
Fixpoint file_lines (content : string) : list string :=
  match content with
  | EmptyString => []
  | String c r =>
      if Ascii.eqb c LF then String c EmptyString :: file_lines r
      else match file_lines r with
           | [] => [String c EmptyString]
           | l :: ls => String c l :: ls
           end
  end.

(** [Skymodel.__init__], on the text of the file. *)
Definition Skymodel_init (content : string) : result Skymodel :=
  let f := file_lines content in
  items <- parse_formatstring (hd "" f) ;;
  elements <- process_lines items ∅ (tl f) ;;
  Ok {| elements := elements; items := items |}.

End WithLibm.

(** ** Vocabulary of the statements *)

(** The normalized cells of the header line. *)
Definition header_fields (line : string) : list string :=
  Py.split "," (Py.remove_char " " (Py.lower line)).

(** Some header cell contains [itemname]. *)
Definition has_column (line itemname : string) : bool :=
  existsb (Py.contains itemname) (header_fields line).

Definition required_itemnames : list string :=
  ["name"; "patch"; "ra"; "dec"; "i"; "referencefrequency"].

(** The message of the [KeyError] of [parse_formatstring]. *)
Definition missing_item (itemname : string) : exn :=
  Raised KeyError ("Item " ++ itemname ++ " missing from sky model").

(** The message of the [ValueError] of a source row without its patch. *)
Definition undefined_patch (patch_name : string) : exn :=
  Raised ValueError
    ("Patch " ++ patch_name ++ " has not been defined before adding sources.").

(** What a successful [parse_formatstring] leaves in [items]. *)
Record header_ok (line : string) (items : gmap string pyval) : Prop := {
  hk_required : forall k, In k required_itemnames ->
      exists i, items !! k = Some (PInt i);
  hk_default : exists d, items !! "default_referencefrequency" = Some (PFloat d);
  hk_spectralindex :
      if has_column line "spectralindex"
      then exists i, items !! "spectralindex" = Some (PInt i)
      else items !! "spectralindex" = None;
  hk_logarithmicsi :
      if has_column line "logarithmicsi"
      then exists i, items !! "logarithmicsi" = Some (PInt i)
      else items !! "logarithmicsi" = None;
}.

(** The cells of a data line, and the line is neither a comment nor blank. *)
Definition row_fields (inputline : string) : list string :=
  Py.split "," (Py.rstrip (String LF "") inputline).

Definition is_data_line (inputline : string) : bool :=
  let inputline := Py.rstrip (String LF "") inputline in
  negb (Py.startswith inputline "#"
        || String.eqb (Py.remove_char "," inputline) "").

(** The trimmed cell at column [i], empty on a short row. *)
Definition cell (inputfields : list string) (i : Z) : string :=
  match Py.index inputfields i with
  | Ok s => Py.strip " " s
  | Raise _ => ""
  end.

(** What the accessor [get_item] of a data line returns for [itemname]
    (empty where it raises, which it does for no required item of a parsed
    header: [Row.get_item_required]). *)
Definition item (items : gmap string pyval) (inputline itemname : string) : string :=
  match get_item items (row_fields inputline) itemname with
  | Ok s => s
  | Raise _ => ""
  end.

(** Only whitespace, the characters of [str.isspace] (or nothing at all). *)
Definition whitespace_only (s : string) : bool :=
  forallb Py.isspace (list_ascii_of_string s).

(** The entries of a coefficient list, as the brightness models split it. *)
Definition coefficients (spectral_index : string) : list string :=
  Py.split "," (Py.strip "[]" spectral_index).

Definition numeric (c : string) : bool := succeeds (Num.float_of_string c).

Definition well_formed (spectral_index : string) : bool :=
  forallb numeric (coefficients spectral_index).

(** Neither a NaN, nor an infinity, nor a zero. *)
Definition is_finite_nonzero (f : float) : bool :=
  negb (PrimFloat.is_nan f) && negb (PrimFloat.is_infinity f)
  && negb (f =? 0)%float.

(** A text file from its lines. *)
Definition file_of_lines (lines : list string) : string :=
  String.concat "" (map (fun l => l ++ String LF "") lines).

Module Examples.

Definition header : string :=
  "Name,Patch,Ra,Dec,I,ReferenceFrequency='60e6',SpectralIndex,LogarithmicSI".

Definition patch_row : string := ",P1,05:12:30,+41.30.00".

(** A source row that leaves its reference frequency to the header. *)
Definition catalog_default_frequency : string :=
  file_of_lines
    [header; patch_row; "s1,P1,05:12:30,+41.30.00,1.5,,[-0.8],true"].

(** A header without the optional [SpectralIndex] column. *)
Definition header_no_spectralindex : string :=
  "Name,Patch,Ra,Dec,I,ReferenceFrequency='60e6',LogarithmicSI".

Definition catalog_no_spectralindex : string :=
  file_of_lines
    [header_no_spectralindex; patch_row;
     "s1,P1,05:12:30,+41.30.00,1.5,100e6,true"].

(** A header without the optional [LogarithmicSI] column. *)
Definition header_no_logarithmicsi : string :=
  "Name,Patch,Ra,Dec,I,ReferenceFrequency='60e6',SpectralIndex".

Definition catalog_no_logarithmicsi : string :=
  file_of_lines
    [header_no_logarithmicsi; patch_row;
     "s1,P1,05:12:30,+41.30.00,1.5,100e6,[-0.8]"].

(** A source row that names a patch no row has defined. *)
Definition catalog_undefined_patch : string :=
  file_of_lines
    [header; patch_row; "s1,P2,05:12:30,+41.30.00,1.5,100e6,[-0.8],true"].

(** A coefficient list with an entry that is not a number. *)
Definition row_bad_coefficients : string :=
  "s1,P1,05:12:30,+41.30.00,1.5,100e6,[abc],true".


(** The flag of the logarithmic model, capitalized. *)
Definition row_capital_True : string :=
  "s1,P1,05:12:30,+41.30.00,1.5,100e6,[-0.8],True".

Definition catalog_capital_True : string :=
  file_of_lines [header; patch_row; row_capital_True].

(** The line that defines a patch, twice. *)
Definition catalog_patch_twice : string :=
  file_of_lines [header; patch_row; patch_row].

(** A second line for a defined patch, brightness empty, frequency given. *)
Definition row_no_brightness : string := "s1,P1,05:12:30,+41.30.00,,100e6".

(** The column map of [header], and the catalog once [patch_row] is read. *)
Definition items : gmap string pyval :=
  match parse_formatstring (header ++ String LF "") with
  | Ok items => items
  | Raise _ => ∅
  end.

Definition patch_P1 : Patch :=
  {| patch_elements := ∅; patch_ra := 78.125; patch_dec := 41.5 |}.

Definition elements_P1 : gmap string Patch :=
  match process_lines items ∅ [patch_row ++ String LF ""] with
  | Ok elements => elements
  | Raise _ => ∅
  end.

(** The source stored under [patch_name] and [source_name]. *)
Definition source_of (m : Skymodel) (patch_name source_name : string)
  : option Source :=
  p ← elements m !! patch_name; patch_elements p !! source_name.

End Examples.

(** ** Vocabulary of the further properties *)

(** The first column whose cell contains [itemname]. *)
Fixpoint first_column (itemname : string) (fields : list string) : option Z :=
  match fields with
  | [] => None
  | c :: r =>
      if Py.contains itemname c then Some 0
      else Z.succ <$> first_column itemname r
  end.

(** The first required item that no header cell contains. *)
Definition first_missing (line : string) : option string :=
  List.find (fun k => negb (has_column line k)) required_itemnames.

(** The header cell that carries the default reference frequency: the
    first one that contains ["referencefrequency"]. *)
Definition referencefrequency_cell (line : string) : string :=
  hd "" (List.filter (Py.contains "referencefrequency") (header_fields line)).

(** The characters that the default reference frequency keeps. *)
Definition default_keeps (c : ascii) : bool :=
  Py.isdigit c || Ascii.eqb c "e" || Ascii.eqb c "-".

(** No character of [s] is [c]. *)
Definition without (c : ascii) (s : string) : bool :=
  forallb (fun d => negb (Ascii.eqb d c)) (list_ascii_of_string s).

Module MoreExamples.

(** A header that lists the coefficients before the coordinates. *)
Definition header_spectralindex_first : string :=
  "Name,Patch,SpectralIndex,Ra,Dec,I,ReferenceFrequency='60e6'".

Definition items_spectralindex_first : gmap string pyval :=
  match parse_formatstring header_spectralindex_first with
  | Ok items => items
  | Raise _ => ∅
  end.

(** A source row for the patch of [Examples.patch_row], and the catalog
    after it. *)
Definition source_row : string :=
  "s1,P1,05:12:30,+41.30.00,1.5,100e6,[-0.8],true" ++ String LF "".

Definition elements_s1 : gmap string Patch :=
  match process_lines Examples.items Examples.elements_P1 [source_row] with
  | Ok elements => elements
  | Raise _ => ∅
  end.

(** A catalog of one patch and one source, and what is built from it. *)
Definition catalog_one_source : string :=
  file_of_lines
    [Examples.header; Examples.patch_row;
     "s1,P1,05:12:30,+41.30.00,1.5,100e6,[-0.8],true"].

Definition skymodel_one_source : Skymodel :=
  match Skymodel_init catalog_one_source with
  | Ok m => m
  | Raise _ => {| elements := ∅; items := ∅ |}
  end.

Definition source_s1 : Source :=
  {| ra := 78.125; dec := 41.5; logSI := true; brightness := 1.5;
     reference_frequency := PFloat 100e6; spectral_index := "[-0.8]" |}.

Definition patch_one_source : Patch :=
  {| patch_elements := {[ "s1" := source_s1 ]};
     patch_ra := 78.125; patch_dec := 41.5 |}.

End MoreExamples.

(** * Properties *)

(** ** Results *)

Lemma succeeds_Ok {A} (r : result A) : succeeds r = true <-> exists a, r = Ok a.
Proof.
  destruct r; cbn; split; eauto; try discriminate. now intros [? ?].
Qed.

(** A result that succeeds is its value. *)
Lemma succeeds_value {A} (r : result A) (d : A) :
  succeeds r = true -> r = Ok (match r with Ok a => a | Raise _ => d end).
Proof. now destruct r. Qed.

Lemma succeeds_bind {A B} (r : result A) (k : A -> result B) :
  succeeds (bind r k) = match r with Ok a => succeeds (k a) | Raise _ => false end.
Proof. now destruct r. Qed.

(** ** Binary64 facts *)

Module FloatFacts.

Lemma digits2_shift52 (m : positive) :
  Zpos (digits2_pos (m * 4503599627370496)) = Zpos (digits2_pos m) + 52.
Proof.
  rewrite !Pos.mul_xO_r, Pos.mul_1_r. cbn [digits2_pos]. lia.
Qed.

(** A product by one is rounded to itself. *)
Lemma SFmul_one_r (x : spec_float) :
  valid_binary x = true -> SF64mul x (Prim2SF 1) = x.
Proof.
  change (Prim2SF 1) with (S754_finite false 4503599627370496 (-52)).
  destruct x as [s|s| |s m e]; cbn [SF64mul SFmul];
    [now destruct s | now destruct s | easy | ].
  intros Hv. cbn [valid_binary] in Hv. unfold bounded, canonical_mantissa in Hv.
  apply andb_prop in Hv as [Hc He]. apply Z.eqb_eq in Hc.
  unfold SFmul, binary_round_aux.
  unfold shr_fexp at 1. cbn [Zdigits2 shr_record_of_loc].
  rewrite digits2_shift52.
  replace (Z.pos (digits2_pos m) + 52 + (e + -52))
    with (Z.pos (digits2_pos m) + e) by lia.
  rewrite Hc.
  replace (e - (e + -52)) with 52 by lia.
  rewrite !Pos.mul_xO_r, Pos.mul_1_r. cbn [shr SpecFloat.iter_pos shr_1 orb].
  cbn [shr_m loc_of_shr_record round_nearest_even].
  unfold shr_fexp. cbn [Zdigits2 shr_record_of_loc].
  replace (e + -52 + 52) with e by lia.
  rewrite Hc, Z.sub_diag. cbn [shr shr_m].
  rewrite He. now destruct s.
Qed.

Lemma mul_one_r (b : float) : (b * 1)%float = b.
Proof.
  apply Prim2SF_inj. rewrite mul_spec. apply SFmul_one_r, Prim2SF_valid.
Qed.

Lemma div_eucl_mul (a b : Z) : 0 < b -> Z.div_eucl (b * a) b = (a, 0).
Proof.
  intros Hb.
  assert (Hq : (b * a) / b = a) by (rewrite Z.mul_comm; apply Z.div_mul; lia).
  assert (Hr : (b * a) mod b = 0) by (rewrite Z.mul_comm; apply Z.mod_mul; lia).
  unfold Z.div in Hq. unfold Z.modulo in Hr.
  destruct (Z.div_eucl (b * a) b) as [q r]. cbn in Hq, Hr. now subst.
Qed.

(** A finite number divided by itself is rounded to one. *)
Lemma SFdiv_self (s : bool) (m : positive) (e : Z) :
  SF64div (S754_finite s m e) (S754_finite s m e) = Prim2SF 1.
Proof.
  change (Prim2SF 1) with (S754_finite false 4503599627370496 (-52)).
  unfold SF64div, SFdiv, SFdiv_core_binary.
  replace (Zdigits2 (Z.pos m) + e - (Zdigits2 (Z.pos m) + e)) with 0 by lia.
  rewrite Z.sub_diag.
  change (Z.min (fexp prec emax 0) 0) with (-53).
  change (0 - -53) with 53.
  rewrite Z.shiftl_mul_pow2 by lia.
  rewrite (Z.mul_comm (Z.pos m)), (Z.mul_comm (2 ^ 53)).
  rewrite div_eucl_mul by lia.
  rewrite xorb_nilpotent. unfold new_location.
  now destruct (Z.even (Z.pos m)).
Qed.

Lemma finite_nonzero_shape (f : float) :
  is_finite_nonzero f = true -> exists s m e, Prim2SF f = S754_finite s m e.
Proof.
  unfold is_finite_nonzero, is_nan, is_infinity.
  rewrite !FloatAxioms.eqb_spec, abs_spec.
  change (Prim2SF 0) with (S754_zero false).
  change (Prim2SF infinity) with (S754_infinity false).
  destruct (Prim2SF f) as [s|s| |s m e]; cbn; try discriminate.
  - now destruct s.
  - intros _. now exists s, m, e.
Qed.

Lemma div_self (f : float) : is_finite_nonzero f = true -> (f / f)%float = 1%float.
Proof.
  intros H. apply finite_nonzero_shape in H as (s & m & e & E).
  apply Prim2SF_inj. rewrite div_spec, E. apply SFdiv_self.
Qed.

Lemma finite_nonzero_neq0 (f : float) :
  is_finite_nonzero f = true -> (f =? 0)%float = false.
Proof.
  unfold is_finite_nonzero. intros H.
  apply andb_prop in H as [_ H]. now apply negb_true_iff in H.
Qed.

End FloatFacts.

(** ** Strings *)

Module StrFacts.

Lemma split_not_nil (sep : ascii) (s : string) : Py.split sep s <> [].
Proof.
  induction s as [|c r IH]; cbn; [easy|].
  destruct (Ascii.eqb c sep); [easy|]. now destruct (Py.split sep r).
Qed.

(** Without the separator, there is one field. *)
Lemma split_absent (sep : ascii) (s : string) :
  forallb (fun c => negb (Ascii.eqb c sep)) (list_ascii_of_string s) = true ->
  Py.split sep s = [s].
Proof.
  induction s as [|c r IH]; cbn; [easy|].
  intros H. apply andb_prop in H as [Hc Hr].
  apply negb_true_iff in Hc. rewrite Hc, (IH Hr). reflexivity.
Qed.

(** Nothing is stripped from a string without the stripped characters. *)
Lemma lstrip_absent (chars s : string) :
  forallb (fun c => negb (Py.mem_char c chars)) (list_ascii_of_string s) = true ->
  Py.lstrip chars s = s.
Proof.
  destruct s as [|c r]; cbn; [easy|].
  intros H. apply andb_prop in H as [Hc _].
  apply negb_true_iff in Hc. now rewrite Hc.
Qed.

Lemma rstrip_absent (chars s : string) :
  forallb (fun c => negb (Py.mem_char c chars)) (list_ascii_of_string s) = true ->
  Py.rstrip chars s = s.
Proof.
  induction s as [|c r IH]; cbn; [easy|].
  intros H. apply andb_prop in H as [Hc Hr].
  apply negb_true_iff in Hc. rewrite (IH Hr), Hc. now destruct r.
Qed.

Lemma strip_absent (chars s : string) :
  forallb (fun c => negb (Py.mem_char c chars)) (list_ascii_of_string s) = true ->
  Py.strip chars s = s.
Proof.
  intros H. unfold Py.strip. now rewrite lstrip_absent, rstrip_absent.
Qed.

Lemma forallb_impl {A} (p q : A -> bool) (l : list A) :
  (forall a, p a = true -> q a = true) ->
  forallb p l = true -> forallb q l = true.
Proof.
  intros Hpq. induction l as [|a l IH]; cbn; [easy|].
  intros H. apply andb_prop in H as [Ha Hl]. now rewrite (Hpq _ Ha), IH.
Qed.

(** A whitespace character is neither a bracket nor a comma. *)
Lemma space_not_bracket (c : ascii) :
  Py.isspace c = true -> negb (Py.mem_char c "[]") = true.
Proof.
  destruct c as [[] [] [] [] [] [] [] []]; cbn; easy.
Qed.

Lemma space_not_comma (c : ascii) :
  Py.isspace c = true -> negb (Ascii.eqb c ",") = true.
Proof.
  destruct c as [[] [] [] [] [] [] [] []]; cbn; easy.
Qed.

(** The whitespace that [float] removes is whitespace; a whitespace
    character that it keeps can start no number. *)
Lemma is_space_isspace (c : ascii) : Num.is_space c = true -> Py.isspace c = true.
Proof.
  destruct c as [[] [] [] [] [] [] [] []]; cbn; easy.
Qed.

Lemma isspace_kept (c : ascii) :
  Py.isspace c = true -> Num.is_space c = false ->
  Num.is_decimal (Py.lower_char c) = false
  /\ Ascii.eqb (Py.lower_char c) "." = false
  /\ Ascii.eqb (Py.lower_char c) "e" = false
  /\ Ascii.eqb (Py.lower_char c) "i" = false
  /\ Ascii.eqb (Py.lower_char c) "n" = false
  /\ c <> "-"%char /\ c <> "+"%char.
Proof.
  destruct c as [[] [] [] [] [] [] [] []]; cbn; intros H1 H2;
    try discriminate H1; try discriminate H2; repeat split; discriminate.
Qed.

Lemma rstrip_space_cons (c : ascii) (s : string) :
  Num.is_space c = false ->
  Num.rstrip_space (String c s) = String c (Num.rstrip_space s).
Proof.
  intros H. cbn [Num.rstrip_space]. rewrite H. now destruct (Num.rstrip_space s).
Qed.

Lemma strip_space_cons (c : ascii) (s : string) :
  Num.is_space c = false ->
  Num.strip_space (String c s) = String c (Num.rstrip_space s).
Proof.
  intros H. unfold Num.strip_space. cbn [Num.lstrip_space]. rewrite H.
  now apply rstrip_space_cons.
Qed.

Lemma split_cons (sep c : ascii) (s : string) :
  Ascii.eqb c sep = false ->
  exists h rest, Py.split sep s = h :: rest
                 /\ Py.split sep (String c s) = String c h :: rest.
Proof.
  intros H. cbn [Py.split]. rewrite H.
  destruct (Py.split sep s) as [|h rest] eqn:E; [now apply split_not_nil in E|].
  now exists h, rest.
Qed.

(** A sign is the one thing before the digits. *)
Lemma split_sign_cons (c : ascii) (s : string) :
  c <> "-"%char -> c <> "+"%char ->
  Num.split_sign (String c s) = (false, String c s).
Proof.
  intros Hm Hp. unfold Num.split_sign.
  destruct c as [[] [] [] [] [] [] [] []]; try reflexivity; congruence.
Qed.

(** No number starts with a character that is neither a digit, nor a
    sign, a point, or the first letter of [inf] or [nan]. *)
Lemma digitpart_start (c : ascii) (s : string) :
  Num.is_decimal c = false -> Num.digitpart (String c s) = None.
Proof. intros H. cbn [Num.digitpart]. now rewrite H. Qed.

Lemma mantissa_start (c : ascii) (s : string) :
  Num.is_decimal c = false -> Ascii.eqb c "." = false ->
  Num.mantissa_of_string (String c s) = None.
Proof.
  intros Hd Hp. unfold Num.mantissa_of_string.
  destruct (split_cons "." c s Hp) as (h & rest & _ & ->).
  destruct rest as [|b [|x l]]; [ | |reflexivity].
  - now rewrite (digitpart_start c h Hd).
  - destruct b; now rewrite (digitpart_start c h Hd).
Qed.

Lemma finite_start (neg : bool) (c : ascii) (s : string) :
  Num.is_decimal (Py.lower_char c) = false ->
  Ascii.eqb (Py.lower_char c) "." = false ->
  Ascii.eqb (Py.lower_char c) "e" = false ->
  Num.finite_of_string neg (String c s) = None.
Proof.
  intros Hd Hp He. unfold Num.finite_of_string. cbn [Py.lower].
  destruct (split_cons "e" _ (Py.lower s) He) as (h & rest & _ & ->).
  destruct rest as [|x [|y l]]; try reflexivity; now rewrite mantissa_start.
Qed.

Lemma float_of_start (c : ascii) (s : string) :
  Num.is_space c = false ->
  Num.is_decimal (Py.lower_char c) = false ->
  Ascii.eqb (Py.lower_char c) "." = false ->
  Ascii.eqb (Py.lower_char c) "e" = false ->
  Ascii.eqb (Py.lower_char c) "i" = false ->
  Ascii.eqb (Py.lower_char c) "n" = false ->
  c <> "-"%char -> c <> "+"%char ->
  Num.float_of_string (String c s) = Raise (Builtin ValueError).
Proof.
  intros Hs Hd Hp He Hi Hn Hm Hq. unfold Num.float_of_string.
  rewrite strip_space_cons, split_sign_cons by assumption.
  cbn [Py.lower String.eqb]. rewrite Hi, Hn. cbn [andb orb].
  now rewrite finite_start.
Qed.

Lemma coefficients_whitespace (text : string) :
  whitespace_only text = true -> coefficients text = [text].
Proof.
  intros H. unfold coefficients.
  rewrite strip_absent by (revert H; apply forallb_impl, space_not_bracket).
  apply split_absent. revert H. apply forallb_impl, space_not_comma.
Qed.

(** [float] of whitespace is a [ValueError]: of nothing, once the
    whitespace is removed, or of a text that starts with a separator. *)
Lemma float_of_whitespace (s : string) :
  whitespace_only s = true -> Num.float_of_string s = Raise (Builtin ValueError).
Proof.
  induction s as [|c r IH]; [reflexivity|].
  cbn [whitespace_only list_ascii_of_string forallb].
  intros H. apply andb_prop in H as [Hc Hr].
  destruct (Num.is_space c) eqn:Hs.
  - rewrite <- (IH Hr). unfold Num.float_of_string, Num.strip_space.
    cbn [Num.lstrip_space]. now rewrite Hs.
  - destruct (isspace_kept c Hc Hs) as (Hd & Hp & He & Hi & Hn & Hm & Hq).
    now apply float_of_start.
Qed.

(** [float] raises nothing but a [ValueError]. *)
Lemma float_of_string_Raise (s : string) (e : exn) :
  Num.float_of_string s = Raise e -> e = Builtin ValueError.
Proof.
  unfold Num.float_of_string.
  destruct (Num.split_sign _) as [neg body].
  destruct (_ || _); [easy|]. destruct (String.eqb _ _); [easy|].
  destruct (Num.finite_of_string _ _); [easy|]. now intros [= <-].
Qed.

End StrFacts.

(** ** The header line *)

Module Header.

Lemma filter_nil (f : string -> bool) (l : list string) :
  List.filter f l = [] <-> existsb f l = false.
Proof.
  induction l as [|a l IH]; cbn; [easy|].
  destruct (f a); cbn; [split; discriminate | exact IH].
Qed.

(** The first match of the filter is found again by [index]. *)
Lemma filter_hd_index (f : string -> bool) (l : list string) (m : string) (t : list string) :
  List.filter f l = m :: t -> exists i, Py.list_index m l = Ok i.
Proof.
  induction l as [|a l IH]; cbn; [discriminate|].
  destruct (f a).
  - intros [= -> _]. rewrite String.eqb_refl. eauto.
  - intros H. destruct (String.eqb a m); [eauto|].
    destruct (IH H) as [i ->]. cbn. eauto.
Qed.

Lemma parse_item_absent (fields : list string) (items : gmap string pyval) (k : string) :
  existsb (Py.contains k) fields = false ->
  parse_item fields items k =
    if String.eqb k "spectralindex" || String.eqb k "logarithmicsi"
    then Ok items else Raise (missing_item k).
Proof.
  intros H. apply filter_nil in H. unfold parse_item. now rewrite H.
Qed.

Lemma parse_item_present (fields : list string) (items : gmap string pyval) (k : string) :
  existsb (Py.contains k) fields = true ->
  String.eqb k "referencefrequency" = false ->
  exists i, parse_item fields items k = Ok (<[k := PInt i]> items).
Proof.
  intros H Hk. unfold parse_item.
  destruct (List.filter _ fields) as [|m t] eqn:E.
  - apply filter_nil in E. congruence.
  - destruct (filter_hd_index _ _ _ _ E) as [i ->]. cbn. rewrite Hk. eauto.
Qed.

Lemma parse_item_referencefrequency (fields : list string) (items : gmap string pyval) :
  existsb (Py.contains "referencefrequency") fields = true ->
  exists i m,
    parse_item fields items "referencefrequency" =
      (d <- default_reference_frequency m ;;
       Ok (<["default_referencefrequency" := PFloat d]>
             (<["referencefrequency" := PInt i]> items))).
Proof.
  intros H. unfold parse_item.
  destruct (List.filter _ fields) as [|m t] eqn:E.
  - apply filter_nil in E. congruence.
  - destruct (filter_hd_index _ _ _ _ E) as [i ->]. cbn. eauto.
Qed.

(** [default_reference_frequency] raises nothing but a [ValueError]. *)
Lemma default_reference_frequency_Raise (m : string) (e : exn) :
  default_reference_frequency m = Raise e -> e = Builtin ValueError.
Proof.
  unfold default_reference_frequency.
  destruct (Py.split "=" m) as [|a [|b [|c l]]]; try (now intros [= <-]).
  apply StrFacts.float_of_string_Raise.
Qed.

Ltac step_present H :=
  let i := fresh "i" in
  let E := fresh "E" in
  match goal with
  | |- context [parse_item ?f ?it ?k] =>
      destruct (parse_item_present f it k H eq_refl) as [i E];
      rewrite E; clear E; cbn [bind]
  end.

Ltac step_absent H := rewrite (parse_item_absent _ _ _ H); cbn [bind].

(** The outcome of [parse_formatstring], column by column. *)
Lemma parse_formatstring_cases (line : string) :
  match parse_formatstring line with
  | Ok items =>
      forallb (has_column line) required_itemnames = true /\ header_ok line items
  | Raise e =>
      (exists k, In k required_itemnames /\ has_column line k = false
                 /\ e = missing_item k)
      \/ (forallb (has_column line) required_itemnames = true
          /\ e = Builtin ValueError)
  end.
Proof.
  unfold parse_formatstring, has_column, header_fields.
  set (fields := Py.split "," _).
  cbn [parse_items list_of_itemnames required_itemnames forallb].
  destruct (existsb (Py.contains "name") fields) eqn:H1;
    [step_present H1 | step_absent H1; left; exists "name"; cbn; tauto].
  destruct (existsb (Py.contains "patch") fields) eqn:H2;
    [step_present H2 | step_absent H2; left; exists "patch"; cbn; tauto].
  destruct (existsb (Py.contains "ra") fields) eqn:H3;
    [step_present H3 | step_absent H3; left; exists "ra"; cbn; tauto].
  destruct (existsb (Py.contains "dec") fields) eqn:H4;
    [step_present H4 | step_absent H4; left; exists "dec"; cbn; tauto].
  destruct (existsb (Py.contains "i") fields) eqn:H5;
    [step_present H5 | step_absent H5; left; exists "i"; cbn; tauto].
  destruct (existsb (Py.contains "referencefrequency") fields) eqn:H6;
    [ | step_absent H6; left; exists "referencefrequency"; cbn; tauto].
  destruct (parse_item_referencefrequency _
              (<["i":=PInt i3]> (<["dec":=PInt i2]> (<["ra":=PInt i1]>
                 (<["patch":=PInt i0]> (<["name":=PInt i]> ∅))))) H6)
    as (i4 & m & E).
  rewrite E; clear E.
  destruct (default_reference_frequency m) as [d|e] eqn:Ed; cbn [bind];
    [ | right; split; [reflexivity | now apply default_reference_frequency_Raise in Ed] ].
  assert (Hopt : forall k, k = "spectralindex" \/ k = "logarithmicsi" ->
            forall items, exists items',
              parse_item fields items k = Ok items'
              /\ (if existsb (Py.contains k) fields
                  then exists j, items' = <[k := PInt j]> items
                  else items' = items)).
  { intros k Hk items.
    destruct (existsb (Py.contains k) fields) eqn:Hc.
    - destruct (parse_item_present _ items _ Hc) as [j Ej];
        [now destruct Hk as [-> | ->] |].
      eauto.
    - rewrite (parse_item_absent _ _ _ Hc). destruct Hk as [-> | ->]; eauto. }
  destruct (Hopt "spectralindex" (or_introl eq_refl)
              (<["default_referencefrequency":=PFloat d]>
                 (<["referencefrequency":=PInt i4]>
                    (<["i":=PInt i3]> (<["dec":=PInt i2]> (<["ra":=PInt i1]>
                       (<["patch":=PInt i0]> (<["name":=PInt i]> ∅))))))))
    as (items7 & E7 & S7).
  rewrite E7; clear E7; cbn [bind].
  destruct (Hopt "logarithmicsi" (or_intror eq_refl) items7) as (items8 & E8 & S8).
  rewrite E8; clear E8; cbn [bind]. clear Hopt.
  split; [reflexivity|].
  destruct (existsb (Py.contains "spectralindex") fields) eqn:H7;
    destruct (existsb (Py.contains "logarithmicsi") fields) eqn:H8;
    repeat match goal with H : exists _, _ |- _ => destruct H end; subst;
    (split;
     [ intros k Hk; cbn in Hk;
       repeat (destruct Hk as [<- | Hk]; [simplify_map_eq; eauto|]); easy
     | simplify_map_eq; eauto
     | change (has_column line "spectralindex")
         with (existsb (Py.contains "spectralindex") fields);
       rewrite H7; simplify_map_eq; eauto
     | change (has_column line "logarithmicsi")
         with (existsb (Py.contains "logarithmicsi") fields);
       rewrite H8; simplify_map_eq; eauto ]).
Qed.

Lemma parse_formatstring_Ok (line : string) (items : gmap string pyval) :
  parse_formatstring line = Ok items -> header_ok line items.
Proof.
  intros H. pose proof (parse_formatstring_cases line) as C.
  rewrite H in C. apply C.
Qed.

End Header.

Module HeaderFacts.

(** The [KeyError] of the header is raised exactly when a required item has
    no column, and it names the first such item. *)
Lemma parse_formatstring_KeyError (line : string) :
  raises (parse_formatstring line) KeyError
  <-> exists k, In k required_itemnames /\ has_column line k = false.
Proof.
  pose proof (Header.parse_formatstring_cases line) as C.
  destruct (parse_formatstring line) as [items|e]; split.
  - intros (e & [=] & _).
  - intros (k & Hk & Hc). destruct C as [Hall _].
    rewrite forallb_forall in Hall. specialize (Hall k Hk). congruence.
  - intros (e' & [= <-] & He).
    destruct C as [(k & Hk & Hc & ->) | [_ ->]]; [eauto | discriminate].
  - intros (k & Hk & Hc).
    destruct C as [(k' & Hk' & Hc' & ->) | [Hall _]].
    + exists (missing_item k'). split; reflexivity.
    + rewrite forallb_forall in Hall. specialize (Hall k Hk). congruence.
Qed.

(** A header that fails stops [Skymodel_init] before any data line. *)
Lemma Skymodel_init_header_Raise (content : string) (e : exn) :
  parse_formatstring (hd "" (file_lines content)) = Raise e ->
  Skymodel_init content = Raise e.
Proof. intros H. unfold Skymodel_init. now rewrite H. Qed.

End HeaderFacts.

(** ** Data lines *)

Module Row.

Lemma index_Raise {A} (l : list A) (i : Z) (e : exn) :
  Py.index l i = Raise e -> e = Builtin IndexError.
Proof.
  unfold Py.index. destruct (_ && _); [|now intros [= <-]].
  destruct (nth_error _ _); [discriminate | now intros [= <-]].
Qed.

Lemma get_item_PInt (items : gmap string pyval) (inputfields : list string)
    (k : string) (i : Z) :
  items !! k = Some (PInt i) ->
  get_item items inputfields k = Ok (cell inputfields i).
Proof.
  intros H. unfold get_item, items_getitem, cell. rewrite H. cbn.
  destruct (Py.index inputfields i) as [s|e] eqn:E; cbn; [reflexivity|].
  now rewrite (index_Raise _ _ _ E).
Qed.

Lemma get_item_PFloat (items : gmap string pyval) (inputfields : list string)
    (k : string) (d : float) :
  items !! k = Some (PFloat d) ->
  get_item items inputfields k = Raise (Builtin TypeError).
Proof. intros H. unfold get_item, items_getitem. now rewrite H. Qed.

Lemma get_item_None (items : gmap string pyval) (inputfields : list string)
    (k : string) :
  items !! k = None ->
  get_item items inputfields k = Raise (Builtin KeyError).
Proof. intros H. unfold get_item, items_getitem. now rewrite H. Qed.

Section Parsed.

Variables (line : string) (items : gmap string pyval).
Hypothesis parsed : header_ok line items.

(** The accessor never raises on a required item. *)
Lemma get_item_required (inputline k : string) :
  In k required_itemnames ->
  get_item items (row_fields inputline) k = Ok (item items inputline k).
Proof.
  intros Hk. destruct (hk_required _ _ parsed k Hk) as [i Hi].
  unfold item. now rewrite (get_item_PInt _ _ _ _ Hi).
Qed.

(** The accessor on the header's default: a [float] is no list index. *)
Lemma get_item_default (inputfields : list string) :
  get_item items inputfields "default_referencefrequency"
  = Raise (Builtin TypeError).
Proof.
  destruct (hk_default _ _ parsed) as [d Hd]. now apply get_item_PFloat with d.
Qed.

(** The reference frequency of a row: the row's own, or a [TypeError]. *)
Lemma row_reference_frequency_eq (inputline : string) :
  row_reference_frequency items (row_fields inputline) =
    match Num.float_of_string (item items inputline "referencefrequency") with
    | Ok f => Ok (PFloat f)
    | Raise _ => Raise (Builtin TypeError)
    end.
Proof.
  unfold row_reference_frequency.
  rewrite get_item_required by (cbn; tauto). cbn [bind].
  destruct (Num.float_of_string _) as [f|e] eqn:E; cbn; [reflexivity|].
  rewrite (StrFacts.float_of_string_Raise _ _ E). cbn.
  now rewrite get_item_default.
Qed.

(** The flag of a row: the comparison with ["true"], or [True] without the
    column. *)
Lemma row_logSI_eq (inputline : string) :
  row_logSI items (row_fields inputline) =
    Ok (if has_column line "logarithmicsi"
        then String.eqb (item items inputline "logarithmicsi") "true"
        else true).
Proof.
  unfold row_logSI, item. pose proof (hk_logarithmicsi _ _ parsed) as H.
  destruct (has_column line "logarithmicsi").
  - destruct H as [i Hi]. now rewrite (get_item_PInt _ _ _ _ Hi).
  - now rewrite (get_item_None _ _ _ H).
Qed.

(** The accessor on the coefficient list: the cell, or a [KeyError] without
    the column. *)
Lemma get_item_spectralindex (inputline : string) :
  get_item items (row_fields inputline) "spectralindex" =
    if has_column line "spectralindex"
    then Ok (item items inputline "spectralindex")
    else Raise (Builtin KeyError).
Proof.
  unfold item. pose proof (hk_spectralindex _ _ parsed) as H.
  destruct (has_column line "spectralindex").
  - destruct H as [i Hi]. now rewrite (get_item_PInt _ _ _ _ Hi).
  - now rewrite (get_item_None _ _ _ H).
Qed.

Lemma process_line_data (elements : gmap string Patch) (inputline : string) :
  is_data_line inputline = true ->
  process_line items elements inputline =
    let patch_name := item items inputline "patch" in
    match elements !! patch_name with
    | None =>
        if negb (String.eqb (item items inputline "i") "")
        then Raise (undefined_patch patch_name)
        else
          p <- Patch_init (item items inputline "ra") (item items inputline "dec") ;;
          Ok (<[patch_name := p]> elements)
    | Some patch =>
        reference_frequency <- row_reference_frequency items (row_fields inputline) ;;
        logSI <- row_logSI items (row_fields inputline) ;;
        brightness <- Num.float_of_string (item items inputline "i") ;;
        spectral_index <- get_item items (row_fields inputline) "spectralindex" ;;
        patch <- add_source patch (item items inputline "name")
                   (item items inputline "ra") (item items inputline "dec")
                   brightness reference_frequency spectral_index logSI ;;
        Ok (<[patch_name := patch]> elements)
    end.
Proof.
  intros Hd. unfold process_line, is_data_line in *.
  apply negb_true_iff in Hd. rewrite Hd.
  fold (row_fields inputline). cbv zeta.
  rewrite (get_item_required inputline "patch") by (cbn; tauto).
  rewrite (get_item_required inputline "i") by (cbn; tauto).
  rewrite (get_item_required inputline "ra") by (cbn; tauto).
  rewrite (get_item_required inputline "dec") by (cbn; tauto).
  rewrite (get_item_required inputline "name") by (cbn; tauto).
  reflexivity.
Qed.

End Parsed.

Lemma process_lines_app (items : gmap string pyval) (elements : gmap string Patch)
    (l1 l2 : list string) :
  process_lines items elements (l1 ++ l2)%list =
    (elements <- process_lines items elements l1 ;;
     process_lines items elements l2).
Proof.
  revert elements. induction l1 as [|a l1 IH]; intros elements; cbn; [reflexivity|].
  destruct (process_line items elements a); cbn; [apply IH | reflexivity].
Qed.

(** The catalog of a file, from one of its lines on. *)
Lemma Skymodel_init_at (content : string) (items : gmap string pyval)
    (before : list string) (elements : gmap string Patch)
    (inputline : string) (rest : list string) :
  parse_formatstring (hd "" (file_lines content)) = Ok items ->
  tl (file_lines content) = (before ++ inputline :: rest)%list ->
  process_lines items ∅ before = Ok elements ->
  Skymodel_init content =
    (elements <- process_line items elements inputline ;;
     elements <- process_lines items elements rest ;;
     Ok {| elements := elements; items := items |}).
Proof.
  intros Hh Ht Hb. unfold Skymodel_init.
  rewrite Hh. cbn [bind]. rewrite Ht, process_lines_app, Hb.
  cbn [bind process_lines].
  now destruct (process_line items elements inputline).
Qed.

(** An error on a line after lines that were read: no [Skymodel]. *)
Lemma Skymodel_init_Raise (content : string) (items : gmap string pyval)
    (before : list string) (elements : gmap string Patch)
    (inputline : string) (rest : list string) (e : exn) :
  parse_formatstring (hd "" (file_lines content)) = Ok items ->
  tl (file_lines content) = (before ++ inputline :: rest)%list ->
  process_lines items ∅ before = Ok elements ->
  process_line items elements inputline = Raise e ->
  Skymodel_init content = Raise e.
Proof.
  intros Hh Ht Hb Hl. unfold Skymodel_init.
  rewrite Hh. cbn [bind]. rewrite Ht, process_lines_app, Hb. cbn.
  now rewrite Hl.
Qed.

End Row.

(** ** The brightness models *)

Module Brightness.

Section Models.

Variable libm : Libm.

(** [pow(1, y)] is [1] for every [y]. *)
Lemma c_pow_one_l (y : float) : c_pow libm 1 y = 1%float.
Proof. unfold c_pow. now destruct (y =? 0)%float. Qed.

(** A sum over entries of which one is no number raises. *)
Lemma sum_terms_not_numeric (k : Z -> float -> result float) (cs : list string) :
  existsb (fun c => negb (numeric c)) cs = true ->
  forall i acc,
    succeeds (sum_terms (fun i c => fc <- Num.float_of_string c ;; k i fc) i cs acc)
    = false.
Proof.
  induction cs as [|c cs IH]; cbn; [discriminate|].
  intros H i acc. unfold numeric in H.
  destruct (Num.float_of_string c) as [fc|e]; cbn in *; [|reflexivity].
  destruct (k i fc); cbn; [now apply IH | reflexivity].
Qed.

(** The sum of the logarithmic model over numbers is a number. *)
Lemma sum_terms_log_Ok (x : float) (cs : list string) :
  forallb numeric cs = true ->
  forall i acc, exists e,
    sum_terms (fun i c => fc <- Num.float_of_string c ;;
                          Ok (fc * c_pow libm (np_log10 libm x) (Num.round_Z i))%float)
      i cs acc = Ok e.
Proof.
  induction cs as [|c cs IH]; cbn; [eauto|].
  intros H i acc. apply andb_prop in H as [Hc Hcs].
  apply succeeds_Ok in Hc as [fc ->]. cbn. now apply IH.
Qed.


(** With a coefficient text of whitespace, the single entry is that text,
    and [float] refuses it. *)
Lemma Source_I_whitespace (s : Source) (v : float) :
  whitespace_only (spectral_index s) = true ->
  Source_I libm s v =
    (x <- truediv v (reference_frequency s) ;; Raise (Builtin ValueError)).
Proof.
  intros H. unfold Source_I, logarithmic_spectral_index_brightness,
    linear_spectral_index_brightness.
  fold (coefficients (spectral_index s)).
  rewrite (StrFacts.coefficients_whitespace _ H).
  destruct (logSI s); destruct (truediv v (reference_frequency s)); cbn;
    try reflexivity; now rewrite (StrFacts.float_of_whitespace _ H).
Qed.

End Models.

Lemma Source_init_fields (right_ascension declination : string) (b : float)
    (rf : pyval) (text : string) (l : bool) (s : Source) :
  Source_init right_ascension declination b rf text l = Ok s ->
  spectral_index s = text /\ logSI s = l /\ brightness s = b
  /\ reference_frequency s = rf
  /\ parse_right_ascension right_ascension = Ok (ra s)
  /\ parse_declination declination = Ok (dec s).
Proof.
  unfold Source_init.
  destruct (parse_right_ascension _); [|discriminate]. cbn.
  destruct (parse_declination _); [|discriminate]. cbn.
  now intros [= <-].
Qed.

End Brightness.

(** ** Source rows under a parsed header *)

Module SourceRow.

Section Parsed.

Variables (line : string) (items : gmap string pyval).
Hypothesis parsed : header_ok line items.

Variables (elements : gmap string Patch) (inputline : string) (patch : Patch).
Hypothesis data : is_data_line inputline = true.
Hypothesis defined : elements !! item items inputline "patch" = Some patch.

(** A line for a defined patch, step by step. *)
Lemma process_line_eq :
  process_line items elements inputline =
    match Num.float_of_string (item items inputline "referencefrequency") with
    | Raise _ => Raise (Builtin TypeError)
    | Ok f =>
        brightness <- Num.float_of_string (item items inputline "i") ;;
        if has_column line "spectralindex" then
          src <- Source_init (item items inputline "ra") (item items inputline "dec")
                   brightness (PFloat f) (item items inputline "spectralindex")
                   (if has_column line "logarithmicsi"
                    then String.eqb (item items inputline "logarithmicsi") "true"
                    else true) ;;
          Ok (<[item items inputline "patch" :=
                  {| patch_elements :=
                       <[item items inputline "name" := src]> (patch_elements patch);
                     patch_ra := patch_ra patch;
                     patch_dec := patch_dec patch |}]> elements)
        else Raise (Builtin KeyError)
    end.
Proof.
  rewrite (Row.process_line_data line items parsed elements inputline data).
  cbv zeta. rewrite defined.
  rewrite (Row.row_reference_frequency_eq line items parsed).
  rewrite (Row.row_logSI_eq line items parsed).
  rewrite (Row.get_item_spectralindex line items parsed).
  destruct (Num.float_of_string (item items inputline "referencefrequency"));
    cbn [bind]; [|reflexivity].
  destruct (Num.float_of_string (item items inputline "i")); cbn [bind]; [|reflexivity].
  destruct (has_column line "spectralindex"); cbn [bind]; [|reflexivity].
  unfold add_source. now destruct (Source_init _ _ _ _ _ _).
Qed.

(** Without a number for its reference frequency, the line raises a
    [TypeError]: the fallback indexes the row by the header's default. *)
Lemma default_frequency_TypeError :
  numeric (item items inputline "referencefrequency") = false ->
  process_line items elements inputline = Raise (Builtin TypeError).
Proof.
  intros H. rewrite process_line_eq. unfold numeric in H.
  now destruct (Num.float_of_string _).
Qed.


(** What an accepted line stores. *)
Lemma process_line_Ok (elements' : gmap string Patch) :
  process_line items elements inputline = Ok elements' ->
  exists patch' src,
    elements' !! item items inputline "patch" = Some patch'
    /\ patch_elements patch' !! item items inputline "name" = Some src
    /\ spectral_index src = item items inputline "spectralindex"
    /\ logSI src = (if has_column line "logarithmicsi"
                    then String.eqb (item items inputline "logarithmicsi") "true"
                    else true).
Proof.
  rewrite process_line_eq.
  destruct (Num.float_of_string (item items inputline "referencefrequency"));
    cbn [bind]; [|discriminate].
  destruct (Num.float_of_string (item items inputline "i")); cbn [bind]; [|discriminate].
  destruct (has_column line "spectralindex"); [|discriminate].
  destruct (Source_init _ _ _ _ _ _) as [src|] eqn:E; cbn [bind]; [|discriminate].
  intros [= <-].
  destruct (Brightness.Source_init_fields _ _ _ _ _ _ _ E) as (Et & El & _).
  eexists _, src. split; [apply lookup_insert_eq|]. cbn [patch_elements].
  split; [apply lookup_insert_eq|]. split; assumption.
Qed.

End Parsed.

(** A line of a defined patch that has no brightness stops the parse: on
    the [ValueError] of [float] when it has a number for its reference
    frequency, and before that on the [TypeError] of the default when it
    has none. *)
Lemma empty_brightness_Raise (content : string)
    (items : gmap string pyval) (before : list string)
    (elements : gmap string Patch) (inputline : string) (rest : list string)
    (patch : Patch) :
  parse_formatstring (hd "" (file_lines content)) = Ok items ->
  tl (file_lines content) = (before ++ inputline :: rest)%list ->
  process_lines items ∅ before = Ok elements ->
  is_data_line inputline = true ->
  elements !! item items inputline "patch" = Some patch ->
  item items inputline "i" = "" ->
  Skymodel_init content =
    Raise (Builtin (if numeric (item items inputline "referencefrequency")
                    then ValueError else TypeError)).
Proof.
  intros Hh Ht Hb Hd Hp Hi.
  pose proof (Header.parse_formatstring_Ok _ _ Hh) as parsed.
  apply (Row.Skymodel_init_Raise content items before elements inputline rest);
    try assumption.
  rewrite (process_line_eq _ _ parsed elements inputline patch Hd Hp).
  unfold numeric. rewrite Hi.
  now destruct (Num.float_of_string (item items inputline "referencefrequency")).
Qed.

End SourceRow.

(** ** What a line leaves in place *)

Module Lines.

Lemma process_line_skip (items : gmap string pyval) (elements : gmap string Patch)
    (inputline : string) :
  is_data_line inputline = false ->
  process_line items elements inputline = Ok elements.
Proof.
  unfold is_data_line, process_line. intros H.
  apply negb_false_iff in H. now rewrite H.
Qed.

Ltac inv_bind H :=
  match type of H with
  | bind ?r _ = Ok _ =>
      let E := fresh "E" in
      destruct r eqn:E; cbn [bind] in H; [|discriminate]
  end.

(** A line leaves the patches of the catalog in place, each with its
    coordinates and at least its sources. *)
Lemma process_line_keeps (items : gmap string pyval) (elements elements' : gmap string Patch)
    (inputline name : string) (patch : Patch) :
  process_line items elements inputline = Ok elements' ->
  elements !! name = Some patch ->
  exists patch',
    elements' !! name = Some patch'
    /\ patch_ra patch' = patch_ra patch
    /\ patch_dec patch' = patch_dec patch
    /\ forall source_name,
         is_Some (patch_elements patch !! source_name) ->
         is_Some (patch_elements patch' !! source_name).
Proof.
  intros H Hn. unfold process_line in H.
  destruct (_ || _); [injection H as <-; now exists patch|].
  cbv beta iota zeta in H. inv_bind H.
  destruct (elements !! a) as [p|] eqn:Ep.
  - repeat inv_bind H. injection H as <-.
    match goal with
    | A : add_source _ ?n _ _ _ _ _ _ = Ok _ |- _ =>
        unfold add_source in A; inv_bind A; injection A as <-;
        rename n into source_name
    end.
    destruct (decide (a = name)) as [->|Hne].
    + rewrite lookup_insert_eq. assert (p = patch) as -> by congruence.
      eexists. split; [reflexivity|]. cbn. repeat split.
      intros n Hs. destruct (decide (source_name = n)) as [->|Hn'].
      * rewrite lookup_insert_eq. eauto.
      * now rewrite lookup_insert_ne.
    + rewrite lookup_insert_ne by assumption. now exists patch.
  - inv_bind H. destruct (negb _); [discriminate|]. repeat inv_bind H.
    injection H as <-.
    assert (a <> name) by congruence.
    rewrite lookup_insert_ne by assumption. now exists patch.
Qed.

(** So do the lines of a file, one after the other. *)
Lemma process_lines_keeps (items : gmap string pyval)
    (lines : list string) (elements elements' : gmap string Patch)
    (name : string) (patch : Patch) :
  process_lines items elements lines = Ok elements' ->
  elements !! name = Some patch ->
  exists patch',
    elements' !! name = Some patch'
    /\ patch_ra patch' = patch_ra patch
    /\ patch_dec patch' = patch_dec patch
    /\ forall source_name,
         is_Some (patch_elements patch !! source_name) ->
         is_Some (patch_elements patch' !! source_name).
Proof.
  revert elements patch. induction lines as [|l lines IH]; intros elements patch H Hn.
  - injection H as <-. now exists patch.
  - cbn [process_lines] in H.
    destruct (process_line items elements l) as [el1|] eqn:E; [|discriminate].
    cbn [bind] in H.
    destruct (process_line_keeps _ _ _ _ _ _ E Hn) as (p1 & H1 & Hra & Hdec & Hs).
    destruct (IH _ _ H H1) as (p2 & H2 & Hra2 & Hdec2 & Hs2).
    exists p2. repeat split; [assumption | congruence | congruence | auto].
Qed.

End Lines.

(** ** The example catalogs *)

Module ExampleFacts.

Lemma header_parsed :
  parse_formatstring (Examples.header ++ String LF "") = Ok Examples.items.
Proof.
  unfold Examples.items. apply succeeds_value. vm_compute. reflexivity.
Qed.

Lemma patch_row_read :
  process_lines Examples.items ∅ [Examples.patch_row ++ String LF ""]
  = Ok Examples.elements_P1.
Proof.
  unfold Examples.elements_P1. apply succeeds_value. vm_compute. reflexivity.
Qed.

End ExampleFacts.

(** ** Coordinates with a zero degree field *)

(** A declination whose degree field is zero: the sign factor is zero, and
    so is the product. *)
Lemma parse_declination_zero_degrees (declination_string : string) (v : float) :
  parse_declination declination_string = Ok v ->
  Num.int_of_string
    (hd "" (Py.split "." (Py.strip "+" (Py.remove_char " " declination_string))))
  = Ok 0 ->
  exists d, v = (0 * d)%float.
Proof.
  unfold parse_declination.
  destruct (Py.split "." _) as [|f0 fs] eqn:E; [now apply StrFacts.split_not_nil in E|].
  change (Py.index (f0 :: fs) 0) with (Ok f0 : result string).
  cbn [bind hd]. intros H H0. rewrite H0 in H. cbn [bind] in H.
  repeat match type of H with
         | bind ?r _ = Ok _ => destruct r; [cbn [bind] in H | discriminate]
         end.
  injection H as <-. cbn [np_sign]. eauto.
Qed.

(** * The claims *)

(** ** The reference frequency of a source row *)

(** C1 (the code departs from the claim): a source row that leaves its
    reference frequency blank does not get the header's default. The
    fallback [get_item("default_referencefrequency")] indexes the row by the
    default itself, a [float], and the parse stops on a [TypeError]
    ([SourceRow.default_frequency_TypeError] for every such row). *)
Theorem C1_default_frequency_TypeError :
  Skymodel_init Examples.catalog_default_frequency = Raise (Builtin TypeError).
Proof. vm_compute. reflexivity. Qed.

(** ** Empty coefficient lists *)

(** C2, as claimed, fails: a source built with an empty coefficient text
    returns no brightness, in either model. *)
Lemma C2_counterexample :
  (forall libm,
     (s <- Source_init "05:12:30" "+41.30.00" 1.5 (PFloat 100e6) "" true ;;
      Source_I libm s 150e6) = Raise (Builtin ValueError))
  /\ (forall libm,
     (s <- Source_init "05:12:30" "+41.30.00" 1.5 (PFloat 100e6) "" false ;;
      Source_I libm s 150e6) = Raise (Builtin ValueError)).
Proof. split; intros libm; vm_compute; reflexivity. Qed.

(** C2 (amended): for every source built with an empty or whitespace-only
    coefficient text, the brightness function returns for no frequency, in
    either model: the text is the one entry of the list and [float] refuses
    it, so that the call raises a [ValueError], unless the division by the
    reference frequency has raised before it. *)
Theorem C2_whitespace_coefficients (libm : Libm)
    (right_ascension declination : string) (brightness : float)
    (reference_frequency : pyval) (spectral_index : string) (logSI : bool)
    (s : Source) (v : float) :
  Source_init right_ascension declination brightness reference_frequency
    spectral_index logSI = Ok s ->
  whitespace_only spectral_index = true ->
  Source_I libm s v =
    (x <- truediv v reference_frequency ;; Raise (Builtin ValueError))
  /\ succeeds (Source_I libm s v) = false.
Proof.
  intros Hs Hw.
  destruct (Brightness.Source_init_fields _ _ _ _ _ _ _ Hs) as (Et & _ & _ & Er & _).
  rewrite <- Et in Hw.
  rewrite (Brightness.Source_I_whitespace libm s v Hw), Er. split; [reflexivity|].
  now destruct (truediv v reference_frequency).
Qed.

(** C2 (amended) on a source whose coefficient text is two spaces. *)
Lemma C2_witness :
  whitespace_only "  " = true
  /\ forall libm,
       let s := {| ra := 78.125; dec := 41.5; logSI := false; brightness := 1.5;
                   reference_frequency := PFloat 100e6; spectral_index := "  " |} in
       Source_I libm s 150e6 =
         (x <- truediv 150e6 (PFloat 100e6) ;; Raise (Builtin ValueError))
       /\ succeeds (Source_I libm s 150e6) = false.
Proof.
  split; [reflexivity|]. intros libm s.
  apply (C2_whitespace_coefficients libm "05:12:30" "+41.30.00" 1.5
           (PFloat 100e6) "  " false s 150e6); reflexivity.
Defined.

(** ** Optional columns of the header *)

(** C3 (the code departs from the claim): the header without a
    [SpectralIndex] column is accepted, and then the first source row stops
    the parse on the [KeyError] of [self.items["spectralindex"]], which
    [get_item] does not catch; without a [LogarithmicSI] column the same
    [KeyError] is caught and the row is read. The [KeyError] of the header
    itself is [HeaderFacts.parse_formatstring_KeyError]. *)
Theorem C3_missing_spectralindex_KeyError :
  succeeds (parse_formatstring Examples.header_no_spectralindex) = true
  /\ Skymodel_init Examples.catalog_no_spectralindex = Raise (Builtin KeyError)
  /\ succeeds (Skymodel_init Examples.catalog_no_logarithmicsi) = true.
Proof. repeat split; vm_compute; reflexivity. Qed.

(** ** Lines of a patch that is not defined *)

(** C4, as claimed, fails: the line [,P2] names a patch that is not in the
    catalog and has no brightness, and no [Patch] comes of it; the parse
    stops on the [ValueError] of its right ascension. *)
Lemma C4_counterexample :
  let inputline := ",P2" ++ String LF "" in
  is_data_line inputline = true
  /\ item Examples.items inputline "patch" = "P2"
  /\ item Examples.items inputline "i" = ""
  /\ process_line Examples.items ∅ inputline = Raise (Builtin ValueError)
  /\ Skymodel_init (file_of_lines [Examples.header; ",P2"])
     = Raise (Builtin ValueError).
Proof. repeat split; vm_compute; reflexivity. Qed.

(** C4 (amended): a data line whose patch is not yet in the catalog. With a
    brightness cell that is not empty, the parse stops on the [ValueError]
    that names the patch, and there is no catalog. With an empty one, the
    catalog of the file is the one of the lines that follow, read after a
    new [Patch] built from the [ra] and [dec] cells of the line: when one
    of the two cells is no coordinate, the parse stops on the error of its
    parser; when both are, the patch is stored under its name without a
    source, and every catalog built from the file has a patch of that name
    with these coordinates. *)
Theorem C4_new_patch (content : string) (items : gmap string pyval)
    (before : list string) (known : gmap string Patch)
    (inputline : string) (rest : list string) :
  parse_formatstring (hd "" (file_lines content)) = Ok items ->
  tl (file_lines content) = (before ++ inputline :: rest)%list ->
  process_lines items ∅ before = Ok known ->
  is_data_line inputline = true ->
  known !! item items inputline "patch" = None ->
  let patch_name := item items inputline "patch" in
  let new := Patch_init (item items inputline "ra") (item items inputline "dec") in
  (item items inputline "i" <> "" ->
     Skymodel_init content = Raise (undefined_patch patch_name))
  /\ (item items inputline "i" = "" ->
      Skymodel_init content =
        (p <- new ;;
         catalog <- process_lines items (<[patch_name := p]> known) rest ;;
         Ok {| elements := catalog; items := items |})
      /\ (forall e, new = Raise e -> Skymodel_init content = Raise e)
      /\ forall ra dec,
           parse_right_ascension (item items inputline "ra") = Ok ra ->
           parse_declination (item items inputline "dec") = Ok dec ->
           process_line items known inputline =
             Ok (<[patch_name :=
                     {| patch_elements := ∅; patch_ra := ra; patch_dec := dec |}]>
                   known)
           /\ forall m,
                Skymodel_init content = Ok m ->
                exists patch,
                  elements m !! patch_name = Some patch
                  /\ patch_ra patch = ra /\ patch_dec patch = dec).
Proof.
  intros Hh Ht Hb Hd Hn patch_name new.
  pose proof (Header.parse_formatstring_Ok _ _ Hh) as parsed.
  pose proof (Row.process_line_data _ _ parsed known inputline Hd) as E.
  cbv zeta in E. rewrite Hn in E.
  pose proof (Row.Skymodel_init_at content items before known inputline rest
                Hh Ht Hb) as Es.
  split; intros Hi.
  - rewrite Es, E. apply String.eqb_neq in Hi. now rewrite Hi.
  - rewrite Hi in E. cbn [String.eqb negb] in E. fold patch_name new in E.
    assert (Eq : Skymodel_init content =
                 (p <- new ;;
                  catalog <- process_lines items (<[patch_name := p]> known) rest ;;
                  Ok {| elements := catalog; items := items |})).
    { rewrite Es, E. now destruct new. }
    split; [exact Eq|]. split.
    + intros e He. now rewrite Eq, He.
    + intros ra dec Hra Hdec.
      assert (Hnew : new = Ok {| patch_elements := ∅; patch_ra := ra;
                                 patch_dec := dec |}).
      { subst new. unfold Patch_init. now rewrite Hra, Hdec. }
      split; [now rewrite E, Hnew|].
      intros m Hm. rewrite Eq, Hnew in Hm. cbn [bind] in Hm.
      destruct (process_lines items _ rest) as [el|] eqn:El; [|discriminate].
      injection Hm as <-. cbn [elements].
      destruct (Lines.process_lines_keeps _ _ _ _ patch_name _ El
                  (lookup_insert_eq _ _ _)) as (p & H1 & H2 & H3 & _).
      now exists p.
Qed.

(** C4 (amended) on the catalog whose source row names the patch [P2], and
    on the line that defines [P1] in the catalog of one source. *)
Lemma C4_witness :
  (let inputline := "s1,P2,05:12:30,+41.30.00,1.5,100e6,[-0.8],true" ++ String LF "" in
   Skymodel_init Examples.catalog_undefined_patch
   = Raise (undefined_patch (item Examples.items inputline "patch")))
  /\ (let inputline := Examples.patch_row ++ String LF "" in
      let patch_name := item Examples.items inputline "patch" in
      process_line Examples.items ∅ inputline =
        Ok (<[patch_name :=
                {| patch_elements := ∅; patch_ra := 78.125; patch_dec := 41.5 |}]> ∅)
      /\ forall m,
           Skymodel_init MoreExamples.catalog_one_source = Ok m ->
           exists patch,
             elements m !! patch_name = Some patch
             /\ patch_ra patch = 78.125%float /\ patch_dec patch = 41.5%float).
Proof.
  split.
  - intros inputline.
    refine (proj1 (C4_new_patch Examples.catalog_undefined_patch Examples.items
                     [Examples.patch_row ++ String LF ""] Examples.elements_P1
                     inputline [] _ _ _ _ _) _).
    + transitivity (parse_formatstring (Examples.header ++ String LF ""));
        [f_equal; vm_compute; reflexivity | apply ExampleFacts.header_parsed].
    + vm_compute. reflexivity.
    + apply ExampleFacts.patch_row_read.
    + vm_compute. reflexivity.
    + vm_compute. reflexivity.
    + vm_compute. discriminate.
  - intros inputline patch_name.
    refine (proj2 (proj2 (proj2 (C4_new_patch MoreExamples.catalog_one_source
                     Examples.items [] ∅ inputline [MoreExamples.source_row]
                     _ _ _ _ _) _)) 78.125%float 41.5%float _ _).
    + transitivity (parse_formatstring (Examples.header ++ String LF ""));
        [f_equal; vm_compute; reflexivity | apply ExampleFacts.header_parsed].
    + vm_compute. reflexivity.
    + reflexivity.
    + vm_compute. reflexivity.
    + apply lookup_empty.
    + vm_compute. reflexivity.
    + vm_compute. reflexivity.
    + vm_compute. reflexivity.
Defined.

(** The two cases of C4 on the example catalogs. *)
Example undefined_patch_P2 :
  Skymodel_init Examples.catalog_undefined_patch = Raise (undefined_patch "P2")
  /\ process_line Examples.items ∅ (Examples.patch_row ++ String LF "")
     = Ok {[ "P1" := Examples.patch_P1 ]}.
Proof. split; vm_compute; reflexivity. Qed.

(** ** Coefficient lists that are not numbers *)




(** The line of C5's example is accepted, and its list is not well formed. *)
Example bad_coefficients_accepted :
  succeeds (process_line Examples.items Examples.elements_P1
              Examples.row_bad_coefficients) = true
  /\ well_formed "[abc]" = false.
Proof. split; vm_compute; reflexivity. Qed.

(** ** The flag of the logarithmic model *)

(** C6, as claimed, fails: the flag [True] of a source row is compared with
    ["true"] as it is written, and the source gets the linear model. *)
Lemma C6_counterexample :
  (m <- Skymodel_init Examples.catalog_capital_True ;;
   Ok (logSI <$> Examples.source_of m "P1" "s1")) = Ok (Some false).
Proof. vm_compute. reflexivity. Qed.

(** C6 (amended): the flag of a source row is true exactly when the trimmed
    [logarithmicsi] cell is ["true"], letter for letter ([True] and [TRUE]
    give false); when the header has no [logarithmicsi] column it is true.
    That flag is the one of the stored source. *)
Theorem C6_logSI_flag (line : string) (items : gmap string pyval)
    (elements : gmap string Patch) (inputline : string) (patch : Patch) :
  parse_formatstring line = Ok items ->
  is_data_line inputline = true ->
  elements !! item items inputline "patch" = Some patch ->
  let flag := if has_column line "logarithmicsi"
              then String.eqb (item items inputline "logarithmicsi") "true"
              else true in
  row_logSI items (row_fields inputline) = Ok flag
  /\ forall elements',
       process_line items elements inputline = Ok elements' ->
       exists patch' src,
         elements' !! item items inputline "patch" = Some patch'
         /\ patch_elements patch' !! item items inputline "name" = Some src
         /\ logSI src = flag.
Proof.
  intros Hh Hd Hp flag. pose proof (Header.parse_formatstring_Ok _ _ Hh) as parsed.
  split.
  - exact (Row.row_logSI_eq _ _ parsed inputline).
  - intros elements' H.
    destruct (SourceRow.process_line_Ok _ _ parsed elements inputline patch Hd Hp _ H)
      as (patch' & src & H1 & H2 & _ & H4).
    now exists patch', src.
Qed.

(** C6 (amended) on the row with the flag [True]. *)
Lemma C6_witness :
  let line := Examples.header ++ String LF "" in
  let inputline := Examples.row_capital_True ++ String LF "" in
  let items := Examples.items in
  let elements := Examples.elements_P1 in
  let flag := if has_column line "logarithmicsi"
              then String.eqb (item items inputline "logarithmicsi") "true"
              else true in
  row_logSI items (row_fields inputline) = Ok flag
  /\ forall elements',
       process_line items elements inputline = Ok elements' ->
       exists patch' src,
         elements' !! item items inputline "patch" = Some patch'
         /\ patch_elements patch' !! item items inputline "name" = Some src
         /\ logSI src = flag.
Proof.
  intros line inputline items elements.
  refine (C6_logSI_flag line items elements inputline Examples.patch_P1 _ _ _).
  - apply ExampleFacts.header_parsed.
  - vm_compute. reflexivity.
  - vm_compute. reflexivity.
Defined.

(** The flag on the example rows, and without the column. *)
Example logSI_examples :
  row_logSI Examples.items (row_fields Examples.row_capital_True) = Ok false
  /\ row_logSI Examples.items
       (row_fields "s1,P1,05:12:30,+41.30.00,1.5,100e6,[-0.8],TRUE") = Ok false
  /\ row_logSI Examples.items
       (row_fields "s1,P1,05:12:30,+41.30.00,1.5,100e6,[-0.8], true ") = Ok true
  /\ (m <- Skymodel_init Examples.catalog_no_logarithmicsi ;;
      Ok (logSI <$> Examples.source_of m "P1" "s1")) = Ok (Some true).
Proof. repeat split; vm_compute; reflexivity. Qed.
(** ** Declinations *)

(** C7 (the code departs from the claim): with a degree field of zero,
    [parse_declination] returns zero whatever the minutes and the seconds:
    half a degree north, written [+00.30.00] or [00.30.00], and half a degree
    south, written [-00.30.00], all become [0], where the claim has
    [+(min/60 + sec/3600) = 0.5]. [parse_right_ascension] takes its sign from
    the leading character and keeps the minutes of a zero hour field. *)
Theorem C7_zero_degree_declination :
  parse_declination "+00.30.00" = Ok 0%float
  /\ parse_declination "00.30.00" = Ok 0%float
  /\ parse_declination "-00.30.00" = Ok 0%float
  /\ parse_declination "+41.30.00" = Ok 41.5%float
  /\ parse_right_ascension "00:30:00" = Ok 7.5%float
  /\ parse_right_ascension "-00:30:00" = Ok (-7.5)%float.
Proof. repeat split; vm_compute; reflexivity. Qed.

(** ** The logarithmic model at the reference frequency *)

(** C8: in the logarithmic model, at a frequency equal to the reference
    frequency (finite and not zero, so that [x = 1]), with any reference
    brightness and any coefficient list whose entries are numbers, the
    brightness is exactly the reference brightness. *)
Theorem C8_logarithmic_at_reference (libm : Libm) (brightness f : float)
    (spectral_index : string) :
  is_finite_nonzero f = true ->
  well_formed spectral_index = true ->
  logarithmic_spectral_index_brightness libm f brightness (PFloat f) spectral_index
  = Ok brightness.
Proof.
  intros Hf Hw. unfold well_formed, coefficients in Hw.
  unfold logarithmic_spectral_index_brightness, truediv, Num.float_div.
  rewrite (FloatFacts.finite_nonzero_neq0 _ Hf), (FloatFacts.div_self _ Hf).
  cbn [bind].
  destruct (Brightness.sum_terms_log_Ok libm 1 _ Hw 0 0%float) as [e ->].
  cbn [bind]. now rewrite Brightness.c_pow_one_l, FloatFacts.mul_one_r.
Qed.

(** C8 at 150 MHz, brightness 2.5 and the list [[0.5,-0.2]]. *)
Lemma C8_witness :
  is_finite_nonzero 150e6 = true
  /\ well_formed "[0.5,-0.2]" = true
  /\ forall libm,
       logarithmic_spectral_index_brightness libm 150e6 2.5 (PFloat 150e6) "[0.5,-0.2]"
       = Ok 2.5%float.
Proof.
  split; [reflexivity|]. split; [reflexivity|].
  intros libm. apply (C8_logarithmic_at_reference libm 2.5 150e6 "[0.5,-0.2]");
    reflexivity.
Defined.

(** ** The linear model on the example *)

(** C9, as claimed, fails: with reference brightness [1] the linear model of
    the example returns [4.5], not [3.5]. *)
Lemma C9_counterexample :
  (forall libm,
     linear_spectral_index_brightness libm 150 1 (PFloat 100) "[2.0,3.0]"
     = Ok 4.5%float)
  /\ (4.5 =? 3.5)%float = false.
Proof. split; [intros libm|]; vm_compute; reflexivity. Qed.

(** C9 (amended): for the linear model with coefficient list [[2.0,3.0]],
    reference frequency [100] and frequency [150], [x] is [0.5] and the
    result is the reference brightness plus [3.5]; it is [3.5] for a
    reference brightness of zero. *)
Theorem C9_linear_example (libm : Libm) (brightness : float) :
  (x <- truediv 150 (PFloat 100) ;; Ok (x - 1)%float) = Ok 0.5%float
  /\ linear_spectral_index_brightness libm 150 brightness (PFloat 100) "[2.0,3.0]"
     = Ok (brightness + 3.5)%float
  /\ linear_spectral_index_brightness libm 150 0 (PFloat 100) "[2.0,3.0]"
     = Ok 3.5%float.
Proof. repeat split; vm_compute; reflexivity. Qed.

(** ** Lines of a defined patch without brightness *)

(** C10 (the code departs from the claim): the line that defines a patch,
    read a second time, stops the parse, but not on the conversion of its
    empty brightness: it has no reference frequency, and the [TypeError] of
    the default frequency (the defect of C1) is raised before [float] sees
    the brightness cell. The same line with a reference frequency raises the
    [ValueError] of the claim ([SourceRow.empty_brightness_Raise] has both
    cases, for every line of a defined patch without brightness). *)
Theorem C10_defined_patch_empty_brightness :
  Skymodel_init Examples.catalog_patch_twice = Raise (Builtin TypeError)
  /\ row_reference_frequency Examples.items (row_fields Examples.patch_row)
     = Raise (Builtin TypeError)
  /\ process_line Examples.items Examples.elements_P1 Examples.row_no_brightness
     = Raise (Builtin ValueError).
Proof. repeat split; vm_compute; reflexivity. Qed.


(** * Further properties *)

(** ** The column map *)

Module Columns.

Lemma filter_head_true (f : string -> bool) (l : list string) (m : string)
    (t : list string) :
  List.filter f l = m :: t -> f m = true.
Proof.
  induction l as [|a l IH]; cbn; [discriminate|].
  destruct (f a) eqn:E; [now intros [= <- _] | exact IH].
Qed.

(** [fields.index] of the first match is the position of the first match. *)
Lemma first_match_index (k : string) (l : list string) (m : string) (t : list string) :
  List.filter (Py.contains k) l = m :: t ->
  exists i, first_column k l = Some i /\ Py.list_index m l = Ok i.
Proof.
  induction l as [|a l IH]; cbn; [discriminate|].
  destruct (Py.contains k a) eqn:E.
  - intros [= -> _]. rewrite String.eqb_refl. eauto.
  - intros H. pose proof (filter_head_true _ _ _ _ H) as Hm.
    destruct (String.eqb a m) eqn:Ea.
    + apply String.eqb_eq in Ea. congruence.
    + destruct (IH H) as (i & -> & ->). cbn. exists (Z.succ i).
      split; [reflexivity | f_equal; lia].
Qed.

Lemma first_column_None (k : string) (l : list string) :
  first_column k l = None <-> existsb (Py.contains k) l = false.
Proof.
  induction l as [|a l IH]; cbn; [easy|].
  destruct (Py.contains k a); cbn; [easy|].
  destruct (first_column k l); cbn; [|easy].
  split; [discriminate|]. intros H. now apply IH in H.
Qed.

Lemma has_column_first (line k : string) :
  has_column line k =
    match first_column k (header_fields line) with Some _ => true | None => false end.
Proof.
  unfold has_column. destruct (first_column k _) eqn:E.
  - destruct (existsb _ _) eqn:E'; [reflexivity|].
    apply first_column_None in E'. congruence.
  - now apply first_column_None.
Qed.

Lemma parse_item_None (fields : list string) (items : gmap string pyval) (k : string) :
  first_column k fields = None ->
  parse_item fields items k =
    if String.eqb k "spectralindex" || String.eqb k "logarithmicsi"
    then Ok items else Raise (missing_item k).
Proof. intros H. now apply Header.parse_item_absent, first_column_None. Qed.

Lemma parse_item_Some (fields : list string) (items : gmap string pyval)
    (k : string) (i : Z) :
  first_column k fields = Some i ->
  parse_item fields items k =
    if String.eqb k "referencefrequency" then
      d <- default_reference_frequency (hd "" (List.filter (Py.contains k) fields)) ;;
      Ok (<["default_referencefrequency" := PFloat d]> (<[k := PInt i]> items))
    else Ok (<[k := PInt i]> items).
Proof.
  intros H. unfold parse_item.
  destruct (List.filter _ fields) as [|m t] eqn:E.
  - apply Header.filter_nil, first_column_None in E. congruence.
  - destruct (first_match_index _ _ _ _ E) as (j & Hj & ->).
    assert (j = i) as -> by congruence. cbn [bind hd].
    now destruct (String.eqb k "referencefrequency").
Qed.

Ltac step k :=
  let i := fresh "i" in
  let F := fresh "F" in
  match goal with
  | |- context [parse_item ?f _ k] =>
      destruct (first_column k f) as [i|] eqn:F;
      [ rewrite (parse_item_Some _ _ _ _ F);
        cbn [String.eqb Ascii.eqb Bool.eqb bind negb]
      | rewrite (parse_item_None _ _ _ F);
        cbn [String.eqb Ascii.eqb Bool.eqb orb bind negb] ]
  end.

(** What [parse_formatstring] returns, on every header line. *)
Lemma parse_formatstring_spec (line : string) :
  match first_missing line with
  | Some k => parse_formatstring line = Raise (missing_item k)
  | None =>
      match default_reference_frequency (referencefrequency_cell line) with
      | Raise e => parse_formatstring line = Raise e
      | Ok d =>
          exists items,
            parse_formatstring line = Ok items
            /\ items !! "default_referencefrequency" = Some (PFloat d)
            /\ forall k, In k list_of_itemnames ->
                 items !! k = PInt <$> first_column k (header_fields line)
      end
  end.
Proof.
  unfold first_missing, referencefrequency_cell, required_itemnames.
  cbn [List.find]. rewrite !has_column_first.
  unfold parse_formatstring. fold (header_fields line).
  generalize (header_fields line) as fields. intros fields.
  cbn [parse_items list_of_itemnames].
  step "name"; [|reflexivity].
  step "patch"; [|reflexivity].
  step "ra"; [|reflexivity].
  step "dec"; [|reflexivity].
  step "i"; [|reflexivity].
  step "referencefrequency"; [|reflexivity].
  destruct (default_reference_frequency _) as [d|e]; cbn [bind]; [|reflexivity].
  step "spectralindex"; step "logarithmicsi";
    (eexists; split; [reflexivity|]; split; [now simplify_map_eq|];
     intros k Hk; cbn in Hk;
     repeat (destruct Hk as [<- | Hk]; [now simplify_map_eq|]); easy).
Qed.

(** The entry of an item name after an accepted header line. *)
Lemma lookup_first_column (line : string) (items : gmap string pyval) (k : string) :
  parse_formatstring line = Ok items ->
  In k list_of_itemnames ->
  items !! k = PInt <$> first_column k (header_fields line).
Proof.
  intros H Hk. pose proof (parse_formatstring_spec line) as S.
  destruct (first_missing line); [congruence|].
  destruct (default_reference_frequency _); [|congruence].
  destruct S as (items' & E & _ & Hall). rewrite H in E. injection E as <-.
  now apply Hall.
Qed.

End Columns.

(** X1: when a required item has no column in the header line, building the
    catalog raises the [KeyError] that names the first such item, in the
    order name, patch, ra, dec, i, referencefrequency, whatever the data
    lines are. *)
Theorem X1_first_missing_item (content k : string) :
  first_missing (hd "" (file_lines content)) = Some k ->
  Skymodel_init content = Raise (missing_item k).
Proof.
  intros H. pose proof (Columns.parse_formatstring_spec (hd "" (file_lines content))) as S.
  rewrite H in S. unfold Skymodel_init. now rewrite S.
Qed.

(** X1 on a header without [Dec] and without [I]: [dec] is named. *)
Lemma X1_witness :
  Skymodel_init
    (file_of_lines ["Name,Patch,Ra,ReferenceFrequency='60e6'"; Examples.patch_row])
  = Raise (missing_item "dec").
Proof. apply X1_first_missing_item. vm_compute. reflexivity. Defined.

Lemma find_negb_None {A} (f : A -> bool) (l : list A) :
  List.find (fun a => negb (f a)) l = None <-> forallb f l = true.
Proof.
  induction l as [|a l IH]; cbn; [easy|].
  destruct (f a); cbn; [exact IH | easy].
Qed.

(** X2: the header line is accepted exactly when every required item has a
    column and the characters kept from the part after [=] of the first
    cell that contains [referencefrequency] are a number for [float]; that
    number is then the default stored in [items]. *)
Theorem X2_header_accepted (line : string) :
  succeeds (parse_formatstring line) =
    forallb (has_column line) required_itemnames
    && succeeds (default_reference_frequency (referencefrequency_cell line))
  /\ forall items,
       parse_formatstring line = Ok items ->
       exists d,
         default_reference_frequency (referencefrequency_cell line) = Ok d
         /\ items !! "default_referencefrequency" = Some (PFloat d).
Proof.
  pose proof (Columns.parse_formatstring_spec line) as S.
  destruct (first_missing line) as [k|] eqn:F.
  - assert (forallb (has_column line) required_itemnames = false) as ->.
    { destruct (forallb _ _) eqn:E; [|reflexivity].
      apply find_negb_None in E. unfold first_missing in F. congruence. }
    rewrite S. split; [reflexivity | discriminate].
  - apply find_negb_None in F. rewrite F.
    destruct (default_reference_frequency _) as [d|e].
    + destruct S as (items & -> & Hd & _). split; [reflexivity|].
      intros ? [= <-]. eauto.
    + rewrite S. split; [reflexivity | discriminate].
Qed.

(** X3: after a header line that is accepted, [items] maps each of the
    eight item names to the position of the first cell of the normalized
    header that contains the name as a substring, and has no entry for an
    optional item that no cell contains. *)
Theorem X3_first_matching_column (line : string) (items : gmap string pyval)
    (k : string) :
  parse_formatstring line = Ok items ->
  In k list_of_itemnames ->
  items !! k = PInt <$> first_column k (header_fields line).
Proof. apply Columns.lookup_first_column. Qed.

(** X3 on a header whose first cell contains the letter [i]: the brightness
    is read from that cell, not from the cell [I]. *)
Lemma X3_witness :
  Examples.items !! "i" = PInt <$> first_column "i" (header_fields Examples.header)
  /\ first_column "i" (header_fields "Id,Name,Patch,Ra,Dec,I") = Some 0.
Proof.
  split; [|reflexivity].
  rewrite (X3_first_matching_column (Examples.header ++ String LF "")
             Examples.items "i" ExampleFacts.header_parsed);
    [vm_compute; reflexivity | cbn; tauto].
Defined.

(** ** Item names inside item names *)

Module Substring.

Lemma append_cons (x : ascii) (a b : string) : String x a ++ b = String x (a ++ b).
Proof. reflexivity. Qed.

Lemma append_nil (b : string) : "" ++ b = b.
Proof. reflexivity. Qed.

Lemma append_assoc (a b c : string) : (a ++ b) ++ c = a ++ (b ++ c).
Proof.
  induction a as [|x a IH]; [reflexivity|].
  now rewrite !append_cons, IH.
Qed.

Lemma prefix_app (p s : string) :
  String.prefix p s = true <-> exists t, s = p ++ t.
Proof.
  revert s. induction p as [|a p IH]; intros s.
  - split; [intros _; now exists s | now destruct s].
  - destruct s as [|b s]; cbn [String.prefix].
    + split; [discriminate|]. intros [t Ht]. rewrite append_cons in Ht. discriminate.
    + destruct (ascii_dec a b) as [<-|Hne].
      * rewrite IH. split; intros [t Ht]; exists t.
        -- now rewrite append_cons, Ht.
        -- rewrite append_cons in Ht. now injection Ht.
      * split; [discriminate|]. intros [t Ht]. rewrite append_cons in Ht.
        injection Ht as E _. congruence.
Qed.

(** [needle in hay]: the hay is the needle between two strings. *)
Lemma contains_app (needle hay : string) :
  Py.contains needle hay = true <-> exists pre post, hay = pre ++ needle ++ post.
Proof.
  induction hay as [|c r IH].
  - cbn [Py.contains]. rewrite orb_false_r, prefix_app. split.
    + intros [t Ht]. now exists "", t.
    + intros (pre & post & H). destruct pre as [|x pre].
      * now exists post.
      * rewrite append_cons in H. discriminate.
  - cbn [Py.contains]. rewrite orb_true_iff, prefix_app, IH. split.
    + intros [[t Ht] | (pre & post & H)].
      * now exists "", t.
      * exists (String c pre), post. now rewrite append_cons, H.
    + intros (pre & post & H). destruct pre as [|x pre].
      * left. now exists post.
      * right. rewrite append_cons in H. injection H as _ H. now exists pre, post.
Qed.

Lemma contains_trans (a b c : string) :
  Py.contains a b = true -> Py.contains b c = true -> Py.contains a c = true.
Proof.
  rewrite !contains_app. intros (p1 & q1 & ->) (p2 & q2 & ->).
  exists (p2 ++ p1), (q1 ++ q2). now rewrite !append_assoc.
Qed.

(** A weaker test has its first match at or before the stronger one's. *)
Lemma first_column_le (k1 k2 : string) (l : list string) (j : Z) :
  (forall c, Py.contains k2 c = true -> Py.contains k1 c = true) ->
  first_column k2 l = Some j ->
  exists i, first_column k1 l = Some i /\ 0 <= i <= j.
Proof.
  intros Himp. revert j. induction l as [|c l IH]; intros j; cbn; [discriminate|].
  destruct (Py.contains k2 c) eqn:E2.
  - intros [= <-]. rewrite (Himp _ E2). exists 0. split; [reflexivity | lia].
  - destruct (first_column k2 l) as [j'|]; [|discriminate]. intros [= <-].
    destruct (IH _ eq_refl) as (i & Hi & Hle).
    destruct (Py.contains k1 c).
    + exists 0. split; [reflexivity | lia].
    + rewrite Hi. exists (Z.succ i). split; [reflexivity | lia].
Qed.

End Substring.

(** X4: after a header line that is accepted, when one item name is a
    substring of another ([ra] and [i] of [spectralindex], [i] of
    [logarithmicsi]) the column of the shorter name is at or before the
    column of the longer one: a header that lists [SpectralIndex] before [Ra]
    reads the right ascensions from the coefficient cells. *)
Theorem X4_overlapping_item_names (line : string) (items : gmap string pyval)
    (k1 k2 : string) (j : Z) :
  parse_formatstring line = Ok items ->
  In k1 list_of_itemnames ->
  In k2 list_of_itemnames ->
  Py.contains k1 k2 = true ->
  items !! k2 = Some (PInt j) ->
  exists i, items !! k1 = Some (PInt i) /\ 0 <= i <= j.
Proof.
  intros H H1 H2 Hc Hj.
  rewrite (Columns.lookup_first_column line items k2 H H2) in Hj.
  rewrite (Columns.lookup_first_column line items k1 H H1).
  destruct (first_column k2 _) as [j'|] eqn:E; [|discriminate].
  injection Hj as ->.
  destruct (Substring.first_column_le k1 k2 _ _
              (fun c => Substring.contains_trans k1 k2 c Hc) E) as (i & -> & Hi).
  now exists i.
Qed.

(** X4 on the header that lists [SpectralIndex] before [Ra]. *)
Lemma X4_witness :
  exists i, MoreExamples.items_spectralindex_first !! "ra" = Some (PInt i)
            /\ 0 <= i <= 2.
Proof.
  apply (X4_overlapping_item_names MoreExamples.header_spectralindex_first
           MoreExamples.items_spectralindex_first "ra" "spectralindex" 2).
  - unfold MoreExamples.items_spectralindex_first. apply succeeds_value.
    vm_compute. reflexivity.
  - cbn. tauto.
  - cbn. tauto.
  - reflexivity.
  - vm_compute. reflexivity.
Defined.

(** ** The normalization of the header line *)

Module Normalize.

Lemma lower_char_idem (c : ascii) : Py.lower_char (Py.lower_char c) = Py.lower_char c.
Proof. destruct c as [[] [] [] [] [] [] [] []]; reflexivity. Qed.

Lemma lower_char_space (c : ascii) :
  Ascii.eqb (Py.lower_char c) " " = Ascii.eqb c " ".
Proof. destruct c as [[] [] [] [] [] [] [] []]; reflexivity. Qed.

Lemma lower_idem (s : string) : Py.lower (Py.lower s) = Py.lower s.
Proof.
  induction s as [|c s IH]; cbn; [reflexivity|]. now rewrite lower_char_idem, IH.
Qed.

Lemma remove_char_idem (c : ascii) (s : string) :
  Py.remove_char c (Py.remove_char c s) = Py.remove_char c s.
Proof.
  induction s as [|d s IH]; cbn; [reflexivity|].
  destruct (Ascii.eqb d c) eqn:E; [exact IH|]. cbn. now rewrite E, IH.
Qed.

Lemma lower_remove_space (s : string) :
  Py.lower (Py.remove_char " " s) = Py.remove_char " " (Py.lower s).
Proof.
  induction s as [|d s IH]; cbn; [reflexivity|].
  rewrite lower_char_space. destruct (Ascii.eqb d " "); [exact IH|].
  cbn. now rewrite IH.
Qed.

End Normalize.

(** X5: the header line is read without regard to case or to spaces:
    lower-casing it, or removing its spaces, changes nothing of what
    [parse_formatstring] returns. *)
Theorem X5_header_case_and_spaces (line : string) :
  parse_formatstring (Py.lower line) = parse_formatstring line
  /\ parse_formatstring (Py.remove_char " " line) = parse_formatstring line.
Proof.
  unfold parse_formatstring. split.
  - now rewrite Normalize.lower_idem.
  - now rewrite Normalize.lower_remove_space, Normalize.remove_char_idem.
Qed.

(** ** The default reference frequency *)

Module Default.

Lemma split_once (sep : ascii) (a b : string) :
  without sep a = true -> without sep b = true ->
  Py.split sep (a ++ String sep b) = [a; b].
Proof.
  intros Ha Hb. induction a as [|c a IH].
  - rewrite Substring.append_nil. cbn [Py.split]. rewrite Ascii.eqb_refl.
    now rewrite (StrFacts.split_absent sep b Hb).
  - cbn in Ha. apply andb_prop in Ha as [Hc Ha]. apply negb_true_iff in Hc.
    rewrite Substring.append_cons. cbn [Py.split]. now rewrite Hc, (IH Ha).
Qed.

Lemma filter_chars_app (keep : ascii -> bool) (a b : string) :
  Py.filter_chars keep (a ++ b) = Py.filter_chars keep a ++ Py.filter_chars keep b.
Proof.
  induction a as [|c a IH]; [reflexivity|].
  rewrite Substring.append_cons. cbn [Py.filter_chars].
  destruct (keep c); [now rewrite Substring.append_cons, IH | exact IH].
Qed.

Lemma without_cons (c d : ascii) (s : string) :
  without c (String d s) = negb (Ascii.eqb d c) && without c s.
Proof. reflexivity. Qed.

Lemma without_app (c : ascii) (a b : string) :
  without c (a ++ b) = without c a && without c b.
Proof.
  induction a as [|d a IH]; [reflexivity|].
  rewrite Substring.append_cons, !without_cons, <- andb_assoc. f_equal. exact IH.
Qed.

(** The default of a cell [name=text]. *)
Lemma default_of_cell (name text : string) :
  without "=" name = true -> without "=" text = true ->
  default_reference_frequency (name ++ String "=" text)
  = Num.float_of_string (Py.filter_chars default_keeps text).
Proof.
  intros Hn Ht. unfold default_reference_frequency.
  now rewrite (split_once "=" name text Hn Ht).
Qed.

End Default.

(** X6: of the part after [=] in the header cell of the reference
    frequency, only the digits, [e] and [-] reach [float]: any other
    character is dropped, a decimal point included, so that a default
    written [74.5e6] is read as [745e6]. *)
Theorem X6_default_drops_characters (name x y : string) (c : ascii) :
  without "=" name = true ->
  without "=" (x ++ String c y) = true ->
  default_keeps c = false ->
  default_reference_frequency (name ++ String "=" (x ++ String c y))
  = default_reference_frequency (name ++ String "=" (x ++ y)).
Proof.
  intros Hn Ht Hc.
  assert (Ht' : without "=" (x ++ y) = true).
  { rewrite Default.without_app in Ht |- *.
    apply andb_prop in Ht as [Hx Hy]. rewrite Default.without_cons in Hy.
    apply andb_prop in Hy as [_ Hy]. now rewrite Hx, Hy. }
  rewrite !Default.default_of_cell by assumption. f_equal.
  rewrite !Default.filter_chars_app. cbn [Py.filter_chars].
  fold default_keeps. now rewrite Hc.
Qed.

(** X6 on the default [74.5e6]. *)
Lemma X6_witness :
  default_reference_frequency "referencefrequency='74.5e6'"
  = default_reference_frequency "referencefrequency='745e6'"
  /\ default_reference_frequency "referencefrequency='745e6'" = Ok 745e6%float.
Proof.
  split; [|vm_compute; reflexivity].
  apply (X6_default_drops_characters "referencefrequency" "'74" "5e6'" ".");
    reflexivity.
Defined.

(** ** The loop over the data lines *)


(** X7: comment lines and lines that hold nothing but commas have no part in
    the catalog: reading the data lines gives what reading them without
    those lines gives. *)
Theorem X7_comments_and_blank_lines (items : gmap string pyval)
    (elements : gmap string Patch) (lines : list string) :
  process_lines items elements lines
  = process_lines items elements (List.filter is_data_line lines).
Proof.
  revert elements. induction lines as [|l lines IH]; intros elements; [reflexivity|].
  cbn [List.filter process_lines]. destruct (is_data_line l) eqn:E.
  - cbn [process_lines]. destruct (process_line items elements l); cbn; [apply IH|reflexivity].
  - rewrite (Lines.process_line_skip _ _ _ E). cbn [bind]. apply IH.
Qed.

(** X8: the catalog only grows. When the data lines are read without an
    error, every patch that was in the catalog before is in it after, with
    the same coordinates, and with every source it had (under the same
    name): no line removes a patch, moves one or removes a source. *)
Theorem X8_catalog_grows (items : gmap string pyval)
    (lines : list string) (elements elements' : gmap string Patch)
    (name : string) (patch : Patch) :
  process_lines items elements lines = Ok elements' ->
  elements !! name = Some patch ->
  exists patch',
    elements' !! name = Some patch'
    /\ patch_ra patch' = patch_ra patch
    /\ patch_dec patch' = patch_dec patch
    /\ forall source_name,
         is_Some (patch_elements patch !! source_name) ->
         is_Some (patch_elements patch' !! source_name).
Proof. apply Lines.process_lines_keeps. Qed.

(** X8 on the catalog of one patch and a source row for it. *)
Lemma X8_witness :
  exists patch',
    MoreExamples.elements_s1 !! "P1" = Some patch'
    /\ patch_ra patch' = patch_ra Examples.patch_P1
    /\ patch_dec patch' = patch_dec Examples.patch_P1
    /\ forall source_name,
         is_Some (patch_elements Examples.patch_P1 !! source_name) ->
         is_Some (patch_elements patch' !! source_name).
Proof.
  apply (X8_catalog_grows Examples.items [MoreExamples.source_row]
           Examples.elements_P1 MoreExamples.elements_s1 "P1" Examples.patch_P1).
  - unfold MoreExamples.elements_s1. apply succeeds_value. vm_compute. reflexivity.
  - vm_compute. reflexivity.
Defined.

(** X9: what a line for a defined patch stores when it is accepted. Its
    reference frequency and its brightness are the numbers of its own cells
    (the header's default is never the stored frequency), its coordinates
    are the parsed [ra] and [dec] cells, its coefficient text is the cell as
    written; the source replaces the source of that name in the patch, and
    nothing else of the catalog changes. *)
Theorem X9_source_row_stored (line : string) (items : gmap string pyval)
    (elements elements' : gmap string Patch) (inputline : string) (patch : Patch) :
  parse_formatstring line = Ok items ->
  is_data_line inputline = true ->
  elements !! item items inputline "patch" = Some patch ->
  process_line items elements inputline = Ok elements' ->
  exists f b ra dec,
    Num.float_of_string (item items inputline "referencefrequency") = Ok f
    /\ Num.float_of_string (item items inputline "i") = Ok b
    /\ parse_right_ascension (item items inputline "ra") = Ok ra
    /\ parse_declination (item items inputline "dec") = Ok dec
    /\ elements' =
         <[item items inputline "patch" :=
             {| patch_elements :=
                  <[item items inputline "name" :=
                      {| ra := ra; dec := dec;
                         logSI := if has_column line "logarithmicsi"
                                  then String.eqb (item items inputline "logarithmicsi")
                                         "true"
                                  else true;
                         brightness := b;
                         reference_frequency := PFloat f;
                         spectral_index := item items inputline "spectralindex" |}]>
                    (patch_elements patch);
                patch_ra := patch_ra patch;
                patch_dec := patch_dec patch |}]> elements.
Proof.
  intros Hh Hd Hp H. pose proof (Header.parse_formatstring_Ok _ _ Hh) as parsed.
  rewrite (SourceRow.process_line_eq _ _ parsed elements inputline patch Hd Hp) in H.
  destruct (Num.float_of_string (item items inputline "referencefrequency")) as [f|];
    [|discriminate].
  destruct (Num.float_of_string (item items inputline "i")) as [b|];
    cbn [bind] in H; [|discriminate].
  destruct (has_column line "spectralindex"); [|discriminate].
  unfold Source_init in H.
  destruct (parse_right_ascension _) as [ra|]; cbn [bind] in H; [|discriminate].
  destruct (parse_declination _) as [dec|]; cbn [bind] in H; [|discriminate].
  injection H as <-. now exists f, b, ra, dec.
Qed.

(** X9 on the source row of the examples. *)
Lemma X9_witness :
  let items := Examples.items in
  let inputline := MoreExamples.source_row in
  exists f b ra dec,
    Num.float_of_string (item items inputline "referencefrequency") = Ok f
    /\ Num.float_of_string (item items inputline "i") = Ok b
    /\ parse_right_ascension (item items inputline "ra") = Ok ra
    /\ parse_declination (item items inputline "dec") = Ok dec
    /\ MoreExamples.elements_s1 =
         <[item items inputline "patch" :=
             {| patch_elements :=
                  <[item items inputline "name" :=
                      {| ra := ra; dec := dec;
                         logSI := if has_column (Examples.header ++ String LF "")
                                       "logarithmicsi"
                                  then String.eqb (item items inputline "logarithmicsi")
                                         "true"
                                  else true;
                         brightness := b;
                         reference_frequency := PFloat f;
                         spectral_index := item items inputline "spectralindex" |}]>
                    (patch_elements Examples.patch_P1);
                patch_ra := patch_ra Examples.patch_P1;
                patch_dec := patch_dec Examples.patch_P1 |}]> Examples.elements_P1.
Proof.
  intros items inputline.
  apply (X9_source_row_stored (Examples.header ++ String LF "") items
           Examples.elements_P1 MoreExamples.elements_s1 inputline Examples.patch_P1).
  - apply ExampleFacts.header_parsed.
  - vm_compute. reflexivity.
  - vm_compute. reflexivity.
  - transitivity (process_lines items Examples.elements_P1 [inputline]).
    + cbn [process_lines]. now destruct (process_line _ _ _).
    + unfold MoreExamples.elements_s1. apply succeeds_value. vm_compute. reflexivity.
Defined.

(** ** class Patch *)

(** X10: [add_source] keeps the coordinates of the patch, stores the new
    source under its name and leaves every other source in place; a second
    source of the same name takes the place of the first, as if the first
    had never been added. It fails, and stores nothing, exactly when one
    of the two coordinates of the source does not parse. *)
Theorem X10_add_source (self : Patch) (source_name : string)
    (right_ascension declination : string) (b : float)
    (reference_frequency : pyval) (text : string) (logSI : bool) :
  succeeds (add_source self source_name right_ascension declination b
              reference_frequency text logSI)
  = succeeds (parse_right_ascension right_ascension)
    && succeeds (parse_declination declination)
  /\ forall self',
       add_source self source_name right_ascension declination b
         reference_frequency text logSI = Ok self' ->
       patch_ra self' = patch_ra self
       /\ patch_dec self' = patch_dec self
       /\ (exists src,
             patch_elements self' !! source_name = Some src
             /\ brightness src = b
             /\ spectral_index src = text)
       /\ (forall other, other <> source_name ->
             patch_elements self' !! other = patch_elements self !! other)
       /\ forall ra2 dec2 b2 rf2 text2 l2,
            add_source self' source_name ra2 dec2 b2 rf2 text2 l2
            = add_source self source_name ra2 dec2 b2 rf2 text2 l2.
Proof.
  unfold add_source, Source_init. split.
  - destruct (parse_right_ascension right_ascension); cbn; [|reflexivity].
    now destruct (parse_declination declination).
  - intros self'.
    destruct (parse_right_ascension right_ascension); cbn [bind]; [|discriminate].
    destruct (parse_declination declination); cbn [bind]; [|discriminate].
    intros [= <-]. cbn. repeat split.
    + eexists. rewrite lookup_insert_eq. split; [reflexivity|]. cbn. tauto.
    + intros other Hne. now rewrite lookup_insert_ne.
    + intros ra2 dec2 b2 rf2 text2 l2.
      destruct (parse_right_ascension ra2); cbn [bind]; [|reflexivity].
      destruct (parse_declination dec2); cbn [bind]; [|reflexivity].
      now rewrite insert_insert_eq.
Qed.

(** ** The errors of the coordinate parsers *)

Module CoordErrors.

Lemma int_of_string_Raise (s : string) (e : exn) :
  Num.int_of_string s = Raise e -> e = Builtin ValueError.
Proof.
  unfold Num.int_of_string. destruct (Num.split_sign _) as [neg body].
  destruct (Num.digitpart body); [|now intros [= <-]].
  destruct (_ <? _); [now intros [= <-] | discriminate].
Qed.

Lemma float_of_int_Raise (z : Z) (e : exn) :
  Num.float_of_int z = Raise e -> e = Builtin OverflowError.
Proof.
  unfold Num.float_of_int. destruct (Num.is_inf _); [now intros [= <-] | discriminate].
Qed.

Lemma int_true_div_Raise (a b : Z) (e : exn) :
  b <> 0 -> Num.int_true_div a b = Raise e -> e = Builtin OverflowError.
Proof.
  unfold Num.int_true_div. intros Hb.
  destruct b; [easy | |]; destruct a; try discriminate;
    (destruct (Num.is_inf _); [now intros [= <-] | discriminate]).
Qed.

Lemma index_0 {A} (a : A) (l : list A) : Py.index (a :: l) 0 = Ok a.
Proof.
  unfold Py.index. cbn [length]. rewrite Nat2Z.inj_succ.
  replace (0 <? 0) with false by reflexivity.
  replace ((0 <=? 0) && (0 <? Z.succ (Z.of_nat (length l)))) with true; [reflexivity|].
  symmetry. apply andb_true_intro. split; [reflexivity | apply Z.ltb_lt; lia].
Qed.

Lemma index_1 {A} (a b : A) (l : list A) : Py.index (a :: b :: l) 1 = Ok b.
Proof.
  unfold Py.index. cbn [length]. rewrite !Nat2Z.inj_succ.
  replace (1 <? 0) with false by reflexivity.
  replace ((0 <=? 1) && (1 <? Z.succ (Z.succ (Z.of_nat (length l))))) with true;
    [reflexivity|].
  symmetry. apply andb_true_intro. split; [reflexivity | apply Z.ltb_lt; lia].
Qed.

End CoordErrors.

(** X11: [parse_right_ascension] raises nothing but a [ValueError], an
    [IndexError] or an [OverflowError]; the [IndexError] is that of the first
    character of the hours, raised exactly when the text, trimmed of spaces,
    has three fields between colons of which the first is empty. A text
    with another number of fields is a [ValueError]. *)
Theorem X11_right_ascension_errors (right_ascension_string : string) (e : exn) :
  parse_right_ascension right_ascension_string = Raise e ->
  (e = Builtin ValueError \/ e = Builtin IndexError \/ e = Builtin OverflowError)
  /\ (e = Builtin IndexError <->
      exists min sec,
        Py.split ":" (Py.strip " " right_ascension_string) = [""; min; sec])
  /\ (length (Py.split ":" (Py.strip " " right_ascension_string)) <> 3%nat ->
      e = Builtin ValueError).
Proof.
  unfold parse_right_ascension.
  destruct (Py.split ":" _) as [|HA [|min [|sec [|x l]]]]; cbn [unpack3 bind];
    try (intros [= <-]; repeat split; try tauto; try discriminate;
         intros (? & ? & [=])).
  destruct HA as [|c HA].
  - cbn. intros [= <-]. repeat split; try tauto; eauto.
  - cbn [list_ascii_of_string]. rewrite CoordErrors.index_0. cbn [bind].
    intros H.
    assert (Hk : e = Builtin ValueError \/ e = Builtin OverflowError).
    { destruct (Num.int_of_string (String c HA)) eqn:E1; cbn [bind] in H;
        [|injection H as <-; left; eapply CoordErrors.int_of_string_Raise; eassumption].
      destruct (Num.int_of_string min) eqn:E2; cbn [bind] in H;
        [|injection H as <-; left; eapply CoordErrors.int_of_string_Raise; eassumption].
      destruct (Num.int_true_div _ 4) eqn:E3; cbn [bind] in H;
        [|injection H as <-; right; eapply CoordErrors.int_true_div_Raise;
          [|eassumption]; lia].
      destruct (Num.float_of_int _) eqn:E4; cbn [bind] in H;
        [|injection H as <-; right; eapply CoordErrors.float_of_int_Raise; eassumption].
      destruct (Num.float_of_string sec) eqn:E5; cbn [bind] in H; [discriminate|].
      injection H as <-. left. eapply StrFacts.float_of_string_Raise; eassumption. }
    repeat split.
    + tauto.
    + intros ->. destruct Hk; discriminate.
    + intros (? & ? & [=]).
    + intros Hl. now contradiction Hl.
Qed.

(** X11 on a text with two fields, and on one whose hours are empty. *)
Lemma X11_witness :
  ((Builtin ValueError = Builtin ValueError \/ Builtin ValueError = Builtin IndexError
    \/ Builtin ValueError = Builtin OverflowError)
   /\ (Builtin ValueError = Builtin IndexError <->
       exists min sec, Py.split ":" (Py.strip " " "12:30") = [""; min; sec])
   /\ (length (Py.split ":" (Py.strip " " "12:30")) <> 3%nat ->
       Builtin ValueError = Builtin ValueError))
  /\ parse_right_ascension ":30:00" = Raise (Builtin IndexError).
Proof.
  split; [|reflexivity].
  apply (X11_right_ascension_errors "12:30" (Builtin ValueError)). reflexivity.
Defined.

(** X12: [parse_declination] raises nothing but a [ValueError], an
    [IndexError] or an [OverflowError]; the [IndexError] is that of the
    missing minutes, raised exactly when the text, without its spaces and
    its outer [+] signs, has no dot and is an integer. *)
Theorem X12_declination_errors (declination_string : string) (e : exn) :
  parse_declination declination_string = Raise e ->
  (e = Builtin ValueError \/ e = Builtin IndexError \/ e = Builtin OverflowError)
  /\ (e = Builtin IndexError <->
      exists deg,
        Py.split "." (Py.strip "+" (Py.remove_char " " declination_string)) = [deg]
        /\ succeeds (Num.int_of_string deg) = true).
Proof.
  unfold parse_declination.
  destruct (Py.split "." _) as [|f0 fs] eqn:Es;
    [now apply StrFacts.split_not_nil in Es|].
  rewrite CoordErrors.index_0. cbn [bind].
  destruct (Num.int_of_string f0) as [deg|e0] eqn:E0; cbn [bind].
  - destruct fs as [|f1 fs].
    + cbn. intros [= <-]. split; [tauto|]. split; [|reflexivity].
      intros _. exists f0. now rewrite E0.
    + rewrite CoordErrors.index_1. cbn [bind]. intros H.
      assert (Hk : e = Builtin ValueError \/ e = Builtin OverflowError).
      { destruct (Num.int_of_string f1) eqn:E1; cbn [bind] in H;
          [|injection H as <-; left; eapply CoordErrors.int_of_string_Raise; eassumption].
        destruct (Num.float_of_string _) eqn:E2; cbn [bind] in H;
          [|injection H as <-; left; eapply StrFacts.float_of_string_Raise; eassumption].
        destruct (Num.int_true_div _ 60) eqn:E3; cbn [bind] in H;
          [|injection H as <-; right; eapply CoordErrors.int_true_div_Raise;
            [|eassumption]; lia].
        destruct (Num.float_of_int _) eqn:E4; cbn [bind] in H; [discriminate|].
        injection H as <-. right. eapply CoordErrors.float_of_int_Raise; eassumption. }
      split; [tauto|]. split.
      * intros ->. destruct Hk; discriminate.
      * intros (? & [=] & _).
  - intros [= <-]. apply CoordErrors.int_of_string_Raise in E0 as E0'. subst e0.
    split; [tauto|]. split; [discriminate|].
    intros (d & [= <- _] & Hd). rewrite E0 in Hd. discriminate.
Qed.

(** X12 on a declination of degrees only. *)
Lemma X12_witness :
  (Builtin IndexError = Builtin ValueError \/ Builtin IndexError = Builtin IndexError
   \/ Builtin IndexError = Builtin OverflowError)
  /\ (Builtin IndexError = Builtin IndexError <->
      exists deg,
        Py.split "." (Py.strip "+" (Py.remove_char " " "+41")) = [deg]
        /\ succeeds (Num.int_of_string deg) = true).
Proof.
  apply (X12_declination_errors "+41" (Builtin IndexError)). reflexivity.
Defined.

(** ** Signs of binary64 products *)

Module FloatSign.

Lemma binary_round_aux_opp (s : bool) (m e : Z) (l : location) :
  binary_round_aux prec emax (negb s) m e l
  = SFopp (binary_round_aux prec emax s m e l).
Proof.
  unfold binary_round_aux.
  destruct (shr_fexp prec emax m e l) as [mrs e'].
  destruct (shr_fexp prec emax _ e' loc_Exact) as [mrs' e''].
  destruct (shr_m mrs'); [reflexivity | | reflexivity].
  now destruct (e'' <=? emax - prec).
Qed.

Lemma SFmul_opp_l (a b : spec_float) :
  SF64mul (SFopp a) b = SFopp (SF64mul a b).
Proof.
  unfold SF64mul.
  destruct a as [sa|sa| |sa ma ea], b as [sb|sb| |sb mb eb]; cbn [SFopp SFmul];
    try reflexivity; try (now destruct sa, sb).
  rewrite <- binary_round_aux_opp. now destruct sa, sb.
Qed.

(** [(-a) * b] is [-(a * b)]. *)
Lemma mul_opp_l (a b : float) : (- a * b)%float = (- (a * b))%float.
Proof.
  apply Prim2SF_inj. now rewrite mul_spec, !opp_spec, mul_spec, SFmul_opp_l.
Qed.

(** A product by zero is a zero or a NaN. *)
Lemma mul_zero_l (d : float) :
  ((0 * d =? 0)%float = true) \/ PrimFloat.is_nan (0 * d)%float = true.
Proof.
  unfold PrimFloat.is_nan. rewrite !FloatAxioms.eqb_spec, mul_spec.
  change (Prim2SF 0) with (S754_zero false).
  destruct (Prim2SF d) as [s|s| |s m e]; cbn; auto.
Qed.

End FloatSign.

(** X13: with a degree field of zero, [parse_declination] returns a zero
    (or a NaN, when the seconds are not finite) whatever the minutes and
    the seconds are: every declination strictly between one degree south
    and one degree north is read as zero. *)
Theorem X13_declination_within_one_degree (declination_string : string) (v : float) :
  parse_declination declination_string = Ok v ->
  Num.int_of_string
    (hd "" (Py.split "." (Py.strip "+" (Py.remove_char " " declination_string))))
  = Ok 0 ->
  (v =? 0)%float = true \/ PrimFloat.is_nan v = true.
Proof.
  unfold parse_declination.
  destruct (Py.split "." _) as [|f0 fs] eqn:E; [now apply StrFacts.split_not_nil in E|].
  rewrite CoordErrors.index_0. cbn [bind hd]. intros H H0. rewrite H0 in H.
  cbn [bind] in H.
  repeat match type of H with
         | bind ?r _ = Ok _ => destruct r; [cbn [bind] in H | discriminate]
         end.
  injection H as <-. cbn [np_sign]. apply FloatSign.mul_zero_l.
Qed.

(** X13 on twenty minutes and thirty seconds south. *)
Lemma X13_witness :
  parse_declination "-00.20.30" = Ok 0%float
  /\ ((0 =? 0)%float = true \/ PrimFloat.is_nan 0 = true).
Proof.
  split; [reflexivity|].
  apply (X13_declination_within_one_degree "-00.20.30" 0); reflexivity.
Defined.

(** ** A leading minus sign *)

Module Minus.

Lemma rstrip_cons (chars : string) (c : ascii) (s : string) :
  Py.mem_char c chars = false ->
  Py.rstrip chars (String c s) = String c (Py.rstrip chars s).
Proof.
  intros H. cbn [Py.rstrip]. rewrite H. now destruct (Py.rstrip chars s).
Qed.

Lemma strip_cons (chars : string) (c : ascii) (s : string) :
  Py.mem_char c chars = false ->
  Py.strip chars (String c s) = String c (Py.rstrip chars s).
Proof.
  intros H. unfold Py.strip. cbn [Py.lstrip]. rewrite H. now apply rstrip_cons.
Qed.

(** What a digit is not. *)
Lemma digit_facts (c : ascii) :
  Py.isdigit c = true ->
  Py.mem_char c " " = false /\ Py.mem_char c "+" = false
  /\ Num.is_space c = false
  /\ Ascii.eqb c ":" = false /\ Ascii.eqb c "." = false
  /\ Ascii.eqb c " " = false /\ Ascii.eqb c "-" = false
  /\ c <> "-"%char /\ c <> "+"%char.
Proof.
  destruct c as [[] [] [] [] [] [] [] []]; cbn; intros H;
    try discriminate H; repeat split; discriminate.
Qed.

(** [int] of a minus sign before a text that starts with a digit. *)
Lemma int_of_minus (c : ascii) (s : string) :
  Py.isdigit c = true ->
  Num.int_of_string (String "-" (String c s))
  = (z <- Num.int_of_string (String c s) ;; Ok (- z)).
Proof.
  intros Hc. destruct (digit_facts c Hc) as (_ & _ & Hs & _ & _ & _ & _ & Hm & Hp).
  unfold Num.int_of_string.
  rewrite (StrFacts.strip_space_cons "-") by reflexivity.
  rewrite (StrFacts.rstrip_space_cons c), (StrFacts.strip_space_cons c) by assumption.
  rewrite (StrFacts.split_sign_cons c) by assumption.
  cbn [Num.split_sign].
  destruct (Num.digitpart _) as [ds|]; [|reflexivity].
  now destruct (_ <? _).
Qed.

End Minus.

Lemma opp_involutive (x : float) : (- - x)%float = x.
Proof.
  apply Prim2SF_inj. rewrite !opp_spec.
  destruct (Prim2SF x) as [s|s| |s m e]; cbn; now rewrite ?negb_involutive.
Qed.

(** X14: a minus sign before a right ascension that starts with a digit
    negates the result and changes nothing else: the same errors, and the
    opposite number, also when the hours are zero. *)
Theorem X14_right_ascension_minus (c : ascii) (r : string) :
  Py.isdigit c = true ->
  parse_right_ascension (String "-" (String c r))
  = (v <- parse_right_ascension (String c r) ;; Ok (- v)%float).
Proof.
  intros Hc.
  destruct (Minus.digit_facts c Hc) as (Hsp & _ & _ & Hcolon & _ & _ & Hminus & _).
  unfold parse_right_ascension.
  rewrite (Minus.strip_cons " " "-") by reflexivity.
  rewrite (Minus.rstrip_cons " " c), (Minus.strip_cons " " c) by assumption.
  destruct (StrFacts.split_cons ":" c (Py.rstrip " " r) Hcolon) as (h & rest & _ & E).
  destruct (StrFacts.split_cons ":" "-" (String c (Py.rstrip " " r)) eq_refl)
    as (h' & rest' & E1 & ->).
  rewrite E in E1 |- *. injection E1 as <- <-.
  destruct rest as [|min [|sec [|x l]]]; cbn [unpack3 bind]; try reflexivity.
  cbn [list_ascii_of_string]. rewrite !CoordErrors.index_0. cbn [bind].
  rewrite Hminus, Ascii.eqb_refl, Minus.int_of_minus by assumption.
  destruct (Num.int_of_string (String c h)) as [z|]; cbn [bind]; [|reflexivity].
  rewrite Z.abs_opp.
  repeat match goal with
         | |- bind ?r _ = bind (bind ?r _) _ =>
             destruct r; cbn [bind]; [|reflexivity]
         end.
  f_equal. change (-1)%float with (- (1))%float. apply FloatSign.mul_opp_l.
Qed.

(** X14 on half an hour. *)
Lemma X14_witness :
  parse_right_ascension "-00:30:00"
  = (v <- parse_right_ascension "00:30:00" ;; Ok (- v)%float)
  /\ parse_right_ascension "-00:30:00" = Ok (-7.5)%float.
Proof.
  split; [|reflexivity].
  apply (X14_right_ascension_minus "0" "0:30:00"). reflexivity.
Defined.

(** X15: a minus sign before a declination that starts with a digit
    negates the result when the degree field is not zero, and leaves the
    result as it is when the degree field is zero. *)
Theorem X15_declination_minus (c : ascii) (r : string) (v : float) :
  Py.isdigit c = true ->
  parse_declination (String c r) = Ok v ->
  exists deg,
    Num.int_of_string
      (hd "" (Py.split "." (Py.strip "+" (Py.remove_char " " (String c r))))) = Ok deg
    /\ parse_declination (String "-" (String c r))
       = Ok (if deg =? 0 then v else (- v)%float).
Proof.
  intros Hc.
  destruct (Minus.digit_facts c Hc) as (_ & Hplus & _ & _ & Hdot & Hspace & _).
  unfold parse_declination.
  cbn [Py.remove_char]. change (Ascii.eqb "-" " ") with false. rewrite Hspace.
  cbv iota.
  rewrite (Minus.strip_cons "+" "-") by reflexivity.
  rewrite (Minus.rstrip_cons "+" c), (Minus.strip_cons "+" c) by assumption.
  destruct (StrFacts.split_cons "." c (Py.rstrip "+" (Py.remove_char " " r)) Hdot)
    as (h & rest & _ & E).
  destruct (StrFacts.split_cons "." "-"
              (String c (Py.rstrip "+" (Py.remove_char " " r))) eq_refl)
    as (h' & rest' & E1 & ->).
  rewrite E in E1 |- *. injection E1 as <- <-. cbn [hd]. rewrite !CoordErrors.index_0. cbn [bind].
  rewrite Minus.int_of_minus by assumption.
  destruct (Num.int_of_string (String c h)) as [deg|]; cbn [bind]; [|discriminate].
  rewrite Z.abs_opp. intros H. exists deg. split; [reflexivity|].
  destruct rest as [|f1 fs]; [discriminate|].
  rewrite !CoordErrors.index_1 in *. cbn [bind skipn drop] in *.
  repeat match type of H with
         | bind ?r _ = Ok _ => destruct r; [cbn [bind] in H |- * | discriminate]
         end.
  injection H as <-. f_equal.
  destruct deg as [|p|p].
  - reflexivity.
  - change (np_sign (- Z.pos p)) with (- (1))%float.
    change (np_sign (Z.pos p)) with 1%float.
    change (Z.pos p =? 0) with false. cbv iota. apply FloatSign.mul_opp_l.
  - change (np_sign (- Z.neg p)) with 1%float.
    change (np_sign (Z.neg p)) with (- (1))%float.
    change (Z.neg p =? 0) with false. cbv iota.
    now rewrite FloatSign.mul_opp_l, opp_involutive.
Qed.

(** X15 on forty-one and a half degrees, and on half a degree. *)
Lemma X15_witness :
  (exists deg,
     Num.int_of_string
       (hd "" (Py.split "." (Py.strip "+" (Py.remove_char " " "41.30.00")))) = Ok deg
     /\ parse_declination "-41.30.00"
        = Ok (if deg =? 0 then 41.5%float else (- 41.5)%float))
  /\ parse_declination "-41.30.00" = Ok (-41.5)%float
  /\ parse_declination "-00.30.00" = parse_declination "00.30.00".
Proof.
  split; [|split; reflexivity].
  apply (X15_declination_minus "4" "1.30.00" 41.5); reflexivity.
Defined.

(** ** When the brightness models return *)

Module Returns.

Section Models.

Variable libm : Libm.

Lemma existsb_not_numeric (cs : list string) :
  forallb numeric cs = false ->
  existsb (fun c => negb (numeric c)) cs = true.
Proof.
  induction cs as [|c cs IH]; cbn; [discriminate|].
  destruct (numeric c); cbn; [exact IH | reflexivity].
Qed.

Lemma logarithmic_succeeds (v b f : float) (text : string) :
  succeeds (logarithmic_spectral_index_brightness libm v b (PFloat f) text)
  = negb (f =? 0)%float && well_formed text.
Proof.
  unfold logarithmic_spectral_index_brightness, truediv, Num.float_div, well_formed.
  fold (coefficients text).
  destruct (f =? 0)%float; cbn [bind negb andb succeeds]; [reflexivity|].
  destruct (forallb numeric (coefficients text)) eqn:W.
  - destruct (Brightness.sum_terms_log_Ok libm (v / f) _ W 0 0%float) as [e ->].
    reflexivity.
  - pose proof (Brightness.sum_terms_not_numeric
                  (fun i fc => Ok (fc * c_pow libm (np_log10 libm (v / f))
                                          (Num.round_Z i))%float)
                  _ (existsb_not_numeric _ W) 0 0%float) as E.
    cbv beta in E. rewrite succeeds_bind. now destruct (sum_terms _ _ _ _).
Qed.

Lemma linear_succeeds (v b f : float) (text : string) :
  succeeds (linear_spectral_index_brightness libm v b (PFloat f) text) = true ->
  negb (f =? 0)%float && well_formed text = true.
Proof.
  unfold linear_spectral_index_brightness, truediv, Num.float_div, well_formed.
  fold (coefficients text).
  destruct (f =? 0)%float; cbn [bind negb andb succeeds]; [discriminate|].
  destruct (forallb numeric (coefficients text)) eqn:W; [reflexivity|].
  pose proof (Brightness.sum_terms_not_numeric
                (fun i fc => p <- float_pow libm (v / f - 1) i ;; Ok (fc * p)%float)
                _ (existsb_not_numeric _ W) 0 0%float) as E.
  cbv beta in E. rewrite succeeds_bind. now destruct (sum_terms _ _ _ _).
Qed.

End Models.

(** [0 + y] and [y] are the same exponent for [pow]. *)
Lemma c_pow_zero_plus (libm : Libm) (x y : float) :
  c_pow libm x (0 + y)%float = c_pow libm x y.
Proof.
  destruct (Prim2SF y) as [[]|s| |s m e] eqn:E.
  - assert (y = neg_zero) as ->
        by (apply Prim2SF_inj; rewrite E; reflexivity).
    reflexivity.
  - f_equal. apply Prim2SF_inj. rewrite add_spec, E. reflexivity.
  - f_equal. apply Prim2SF_inj. rewrite add_spec, E. reflexivity.
  - f_equal. apply Prim2SF_inj. rewrite add_spec, E. reflexivity.
  - f_equal. apply Prim2SF_inj. rewrite add_spec, E. reflexivity.
Qed.

End Returns.

(** X16: the logarithmic model returns a brightness exactly when the
    reference frequency is not zero and every entry of the coefficient list
    is a number for [float]: no operation of it on numbers raises. The
    linear model returns only under the same two conditions. With a
    reference frequency of zero both raise [ZeroDivisionError], before any
    coefficient is read. *)
Theorem X16_models_return (libm : Libm) (v b f : float) (text : string) :
  succeeds (logarithmic_spectral_index_brightness libm v b (PFloat f) text)
  = negb (f =? 0)%float && well_formed text
  /\ (succeeds (linear_spectral_index_brightness libm v b (PFloat f) text) = true ->
      negb (f =? 0)%float && well_formed text = true)
  /\ ((f =? 0)%float = true ->
      logarithmic_spectral_index_brightness libm v b (PFloat f) text
      = Raise (Builtin ZeroDivisionError)
      /\ linear_spectral_index_brightness libm v b (PFloat f) text
         = Raise (Builtin ZeroDivisionError)).
Proof.
  split; [apply Returns.logarithmic_succeeds|].
  split; [apply Returns.linear_succeeds|].
  intros H. unfold logarithmic_spectral_index_brightness,
    linear_spectral_index_brightness, truediv, Num.float_div.
  now rewrite H.
Qed.

(** X17: with a single coefficient [alpha], the logarithmic model is the
    power law: the brightness at frequency [v] is the reference brightness
    times [(v / reference_frequency) ** alpha]. *)
Theorem X17_power_law (libm : Libm) (v b f : float) (text c : string) (alpha : float) :
  coefficients text = [c] ->
  Num.float_of_string c = Ok alpha ->
  logarithmic_spectral_index_brightness libm v b (PFloat f) text
  = (x <- Num.float_div v f ;; Ok (b * c_pow libm x alpha)%float).
Proof.
  intros Hc Ha. unfold logarithmic_spectral_index_brightness, truediv.
  fold (coefficients text). rewrite Hc.
  destruct (Num.float_div v f) as [x|]; cbn [bind sum_terms]; [|reflexivity].
  rewrite Ha. cbn [bind].
  change (c_pow libm (np_log10 libm x) (Num.round_Z 0)) with 1%float.
  now rewrite FloatFacts.mul_one_r, Returns.c_pow_zero_plus.
Qed.

(** X17 on the spectral index [-0.75]. *)
Lemma X17_witness :
  coefficients "[-0.75]" = ["-0.75"]
  /\ Num.float_of_string "-0.75" = Ok (-0.75)%float
  /\ forall libm,
       logarithmic_spectral_index_brightness libm 150e6 1.5 (PFloat 100e6) "[-0.75]"
       = Ok (1.5 * c_pow libm 1.5 (-0.75))%float.
Proof.
  split; [reflexivity|]. split; [reflexivity|]. intros libm.
  exact (X17_power_law libm 150e6 1.5 100e6 "[-0.75]" "-0.75" (-0.75) eq_refl eq_refl).
Defined.

(** X18: with a single coefficient, the linear model does not depend on
    the frequency: at every frequency it is the reference brightness plus
    that coefficient. *)
Theorem X18_linear_constant (libm : Libm) (v b f : float) (text c : string)
    (c0 : float) :
  coefficients text = [c] ->
  Num.float_of_string c = Ok c0 ->
  linear_spectral_index_brightness libm v b (PFloat f) text
  = (x <- Num.float_div v f ;; Ok (b + (0 + c0))%float).
Proof.
  intros Hc Ha. unfold linear_spectral_index_brightness, truediv.
  fold (coefficients text). rewrite Hc.
  destruct (Num.float_div v f) as [x|]; cbn [bind sum_terms]; [|reflexivity].
  rewrite Ha. cbn [bind].
  change (float_pow libm (x - 1) 0) with (Ok 1%float : result float).
  cbn [bind]. now rewrite FloatFacts.mul_one_r.
Qed.

(** X18 on the coefficient [0.25], at two frequencies. *)
Lemma X18_witness :
  coefficients "[0.25]" = ["0.25"]
  /\ Num.float_of_string "0.25" = Ok 0.25%float
  /\ forall libm,
       linear_spectral_index_brightness libm 150e6 1.5 (PFloat 100e6) "[0.25]"
       = Ok 1.75%float
       /\ linear_spectral_index_brightness libm 30e6 1.5 (PFloat 100e6) "[0.25]"
          = Ok 1.75%float.
Proof.
  split; [reflexivity|]. split; [reflexivity|]. intros libm. split.
  - exact (X18_linear_constant libm 150e6 1.5 100e6 "[0.25]" "0.25" 0.25 eq_refl eq_refl).
  - exact (X18_linear_constant libm 30e6 1.5 100e6 "[0.25]" "0.25" 0.25 eq_refl eq_refl).
Defined.

(** X19: [parse_declination] reads a text without regard to its spaces,
    wherever they are, and to a plus sign in front of it; spaces in front of
    a right ascension are not read either. *)
Theorem X19_coordinate_padding (s : string) :
  parse_declination (Py.remove_char " " s) = parse_declination s
  /\ parse_declination (String " " s) = parse_declination s
  /\ parse_declination (String "+" s) = parse_declination s
  /\ parse_right_ascension (String " " s) = parse_right_ascension s.
Proof.
  unfold parse_declination, parse_right_ascension.
  rewrite Normalize.remove_char_idem. repeat split.
Qed.

(** ** Where the patches and the sources of a catalog come from *)

Module Provenance.

Section Parsed.

Variables (line : string) (items : gmap string pyval).
Hypothesis parsed : header_ok line items.

(** A patch that a line adds is defined by that line. *)
Lemma process_line_new (elements elements' : gmap string Patch) (l name : string)
    (p : Patch) :
  process_line items elements l = Ok elements' ->
  elements !! name = None ->
  elements' !! name = Some p ->
  is_data_line l = true
  /\ item items l "patch" = name
  /\ item items l "i" = ""
  /\ parse_right_ascension (item items l "ra") = Ok (patch_ra p)
  /\ parse_declination (item items l "dec") = Ok (patch_dec p)
  /\ patch_elements p = ∅.
Proof.
  intros H Hn Hp. destruct (is_data_line l) eqn:Hd.
  - rewrite (Row.process_line_data line items parsed elements l Hd) in H.
    cbv zeta in H. destruct (elements !! item items l "patch") as [p0|] eqn:E0.
    + repeat Lines.inv_bind H. injection H as <-.
      rewrite lookup_insert_ne in Hp by congruence. congruence.
    + destruct (String.eqb (item items l "i") "") eqn:Ei; cbn [negb] in H;
        [|discriminate].
      apply String.eqb_eq in Ei. unfold Patch_init in H.
      destruct (parse_right_ascension _) as [ra|]; cbn [bind] in H; [|discriminate].
      destruct (parse_declination _) as [dec|]; cbn [bind] in H; [|discriminate].
      injection H as <-.
      destruct (decide (item items l "patch" = name)) as [En|Hne].
      * rewrite En, lookup_insert_eq in Hp. injection Hp as <-. now repeat split.
      * rewrite lookup_insert_ne in Hp by assumption. congruence.
  - rewrite (Lines.process_line_skip _ _ _ Hd) in H. injection H as <-. congruence.
Qed.

(** A source that a line adds is the source of that line. *)
Lemma process_line_source (elements elements' : gmap string Patch)
    (l patch_name source_name : string) (p : Patch) (src : Source) :
  process_line items elements l = Ok elements' ->
  elements' !! patch_name = Some p ->
  patch_elements p !! source_name = Some src ->
  (exists p0, elements !! patch_name = Some p0
              /\ patch_elements p0 !! source_name = Some src)
  \/ (is_data_line l = true
      /\ item items l "patch" = patch_name
      /\ item items l "name" = source_name
      /\ Num.float_of_string (item items l "i") = Ok (brightness src)
      /\ (exists f, Num.float_of_string (item items l "referencefrequency") = Ok f
                    /\ reference_frequency src = PFloat f)
      /\ spectral_index src = item items l "spectralindex"
      /\ parse_right_ascension (item items l "ra") = Ok (ra src)
      /\ parse_declination (item items l "dec") = Ok (dec src)).
Proof.
  intros H Hp Hs. destruct (is_data_line l) eqn:Hd.
  - destruct (elements !! item items l "patch") as [p0|] eqn:E0.
    + rewrite (SourceRow.process_line_eq line items parsed elements l p0 Hd E0) in H.
      destruct (Num.float_of_string (item items l "referencefrequency")) as [f|];
        [|discriminate].
      destruct (Num.float_of_string (item items l "i")) as [b|];
        cbn [bind] in H; [|discriminate].
      destruct (has_column line "spectralindex"); [|discriminate].
      unfold Source_init in H.
      destruct (parse_right_ascension _) as [ra0|]; cbn [bind] in H; [|discriminate].
      destruct (parse_declination _) as [dec0|]; cbn [bind] in H; [|discriminate].
      injection H as <-.
      destruct (decide (item items l "patch" = patch_name)) as [En|Hne].
      * rewrite En, lookup_insert_eq in Hp. injection Hp as <-. cbn in Hs.
        destruct (decide (item items l "name" = source_name)) as [Es|Hns].
        -- rewrite Es, lookup_insert_eq in Hs. injection Hs as <-. right. cbn.
           repeat split; try assumption; try reflexivity. now exists f.
        -- rewrite lookup_insert_ne in Hs by assumption. left. exists p0.
           split; [congruence | assumption].
      * rewrite lookup_insert_ne in Hp by assumption. left. now exists p.
    + rewrite (Row.process_line_data line items parsed elements l Hd) in H.
      cbv zeta in H. rewrite E0 in H.
      destruct (negb _); [discriminate|]. unfold Patch_init in H.
      destruct (parse_right_ascension _) as [ra0|]; cbn [bind] in H; [|discriminate].
      destruct (parse_declination _) as [dec0|]; cbn [bind] in H; [|discriminate].
      injection H as <-.
      destruct (decide (item items l "patch" = patch_name)) as [En|Hne].
      * rewrite En, lookup_insert_eq in Hp. injection Hp as <-. cbn in Hs.
        now rewrite lookup_empty in Hs.
      * rewrite lookup_insert_ne in Hp by assumption. left. now exists p.
  - rewrite (Lines.process_line_skip _ _ _ Hd) in H. injection H as <-.
    left. now exists p.
Qed.

(** Every patch after the loop was there before it, or a line defines it. *)
Lemma patch_defined (lines : list string) (elements elements' : gmap string Patch)
    (name : string) (patch : Patch) :
  process_lines items elements lines = Ok elements' ->
  elements' !! name = Some patch ->
  (exists p0, elements !! name = Some p0
              /\ patch_ra p0 = patch_ra patch /\ patch_dec p0 = patch_dec patch)
  \/ exists l,
       In l lines
       /\ is_data_line l = true
       /\ item items l "patch" = name
       /\ item items l "i" = ""
       /\ parse_right_ascension (item items l "ra") = Ok (patch_ra patch)
       /\ parse_declination (item items l "dec") = Ok (patch_dec patch).
Proof.
  revert elements. induction lines as [|l lines IH]; intros elements H Hp.
  - injection H as <-. left. now exists patch.
  - cbn [process_lines] in H.
    destruct (process_line items elements l) as [el1|] eqn:E; [|discriminate].
    cbn [bind] in H.
    destruct (IH _ H Hp) as [(p1 & H1 & Hra & Hdec) | (l' & Hin & Hrest)].
    + destruct (elements !! name) as [p0|] eqn:E0.
      * left. exists p0. split; [reflexivity|].
        destruct (Lines.process_line_keeps _ _ _ _ _ _ E E0) as (p1' & H1' & Hra' & Hdec' & _).
        assert (p1' = p1) as -> by congruence. split; congruence.
      * right. exists l.
        destruct (process_line_new _ _ _ _ _ E E0 H1) as (Hd & Hn & Hi & Hr & Hde & _).
        split; [now left|]. rewrite <- Hra, <- Hdec. now repeat split.
    + right. exists l'. split; [now right | exact Hrest].
Qed.

(** Every source after the loop was there before it, or a line holds it. *)
Lemma source_read (lines : list string) (elements elements' : gmap string Patch)
    (patch_name source_name : string) (patch : Patch) (src : Source) :
  process_lines items elements lines = Ok elements' ->
  elements' !! patch_name = Some patch ->
  patch_elements patch !! source_name = Some src ->
  (exists p0, elements !! patch_name = Some p0
              /\ patch_elements p0 !! source_name = Some src)
  \/ exists l,
       In l lines
       /\ is_data_line l = true
       /\ item items l "patch" = patch_name
       /\ item items l "name" = source_name
       /\ Num.float_of_string (item items l "i") = Ok (brightness src)
       /\ (exists f, Num.float_of_string (item items l "referencefrequency") = Ok f
                     /\ reference_frequency src = PFloat f)
       /\ spectral_index src = item items l "spectralindex"
       /\ parse_right_ascension (item items l "ra") = Ok (ra src)
       /\ parse_declination (item items l "dec") = Ok (dec src).
Proof.
  revert elements. induction lines as [|l lines IH]; intros elements H Hp Hs.
  - injection H as <-. left. now exists patch.
  - cbn [process_lines] in H.
    destruct (process_line items elements l) as [el1|] eqn:E; [|discriminate].
    cbn [bind] in H.
    destruct (IH _ H Hp Hs) as [(p1 & H1 & Hs1) | (l' & Hin & Hrest)].
    + destruct (process_line_source _ _ _ _ _ _ _ E H1 Hs1) as [Hold | Hnew].
      * now left.
      * right. exists l. split; [now left | exact Hnew].
    + right. exists l'. split; [now right | exact Hrest].
Qed.

End Parsed.

End Provenance.

(** X20: every patch of a catalog was defined by a data line of the file:
    a line with that patch name and an empty brightness cell, whose [ra]
    and [dec] cells parse to the coordinates of the patch. *)
Theorem X20_patches_are_defined (content : string) (m : Skymodel)
    (name : string) (patch : Patch) :
  Skymodel_init content = Ok m ->
  elements m !! name = Some patch ->
  exists l,
    In l (tl (file_lines content))
    /\ is_data_line l = true
    /\ item (items m) l "patch" = name
    /\ item (items m) l "i" = ""
    /\ parse_right_ascension (item (items m) l "ra") = Ok (patch_ra patch)
    /\ parse_declination (item (items m) l "dec") = Ok (patch_dec patch).
Proof.
  unfold Skymodel_init. intros H Hp.
  destruct (parse_formatstring _) as [its|] eqn:Eh; cbn [bind] in H; [|discriminate].
  destruct (process_lines its ∅ _) as [el|] eqn:El; cbn [bind] in H; [|discriminate].
  injection H as <-. cbn in Hp |- *.
  pose proof (Header.parse_formatstring_Ok _ _ Eh) as parsed.
  destruct (Provenance.patch_defined _ _ parsed _ _ _ _ _ El Hp)
    as [(p0 & H0 & _) | Hl]; [|exact Hl].
  now rewrite lookup_empty in H0.
Qed.

(** X21: every source of a catalog was read from a data line of the file,
    with its patch name and its own name: its brightness and its reference
    frequency are the numbers of the [i] and [referencefrequency] cells of
    that line (no source has the header's default), its coefficient text
    is the cell as written and its coordinates are the parsed [ra] and
    [dec] cells. *)
Theorem X21_sources_are_read (content : string) (m : Skymodel)
    (patch_name source_name : string) (patch : Patch) (src : Source) :
  Skymodel_init content = Ok m ->
  elements m !! patch_name = Some patch ->
  patch_elements patch !! source_name = Some src ->
  exists l,
    In l (tl (file_lines content))
    /\ is_data_line l = true
    /\ item (items m) l "patch" = patch_name
    /\ item (items m) l "name" = source_name
    /\ Num.float_of_string (item (items m) l "i") = Ok (brightness src)
    /\ (exists f,
          Num.float_of_string (item (items m) l "referencefrequency") = Ok f
          /\ reference_frequency src = PFloat f)
    /\ spectral_index src = item (items m) l "spectralindex"
    /\ parse_right_ascension (item (items m) l "ra") = Ok (ra src)
    /\ parse_declination (item (items m) l "dec") = Ok (dec src).
Proof.
  unfold Skymodel_init. intros H Hp Hs.
  destruct (parse_formatstring _) as [its|] eqn:Eh; cbn [bind] in H; [|discriminate].
  destruct (process_lines its ∅ _) as [el|] eqn:El; cbn [bind] in H; [|discriminate].
  injection H as <-. cbn in Hp |- *.
  pose proof (Header.parse_formatstring_Ok _ _ Eh) as parsed.
  destruct (Provenance.source_read _ _ parsed _ _ _ _ _ _ _ El Hp Hs)
    as [(p0 & H0 & _) | Hl]; [|exact Hl].
  now rewrite lookup_empty in H0.
Qed.

Module MoreExampleFacts.

Lemma one_source_built :
  Skymodel_init MoreExamples.catalog_one_source = Ok MoreExamples.skymodel_one_source.
Proof.
  unfold MoreExamples.skymodel_one_source. apply succeeds_value.
  vm_compute. reflexivity.
Qed.

Lemma one_source_patch :
  elements MoreExamples.skymodel_one_source !! "P1"
  = Some MoreExamples.patch_one_source.
Proof. vm_compute. reflexivity. Qed.

End MoreExampleFacts.

(** X20 on the catalog of one patch and one source. *)
Lemma X20_witness :
  let m := MoreExamples.skymodel_one_source in
  exists l,
    In l (tl (file_lines MoreExamples.catalog_one_source))
    /\ is_data_line l = true
    /\ item (items m) l "patch" = "P1"
    /\ item (items m) l "i" = ""
    /\ parse_right_ascension (item (items m) l "ra")
       = Ok (patch_ra MoreExamples.patch_one_source)
    /\ parse_declination (item (items m) l "dec")
       = Ok (patch_dec MoreExamples.patch_one_source).
Proof.
  exact (X20_patches_are_defined MoreExamples.catalog_one_source
           MoreExamples.skymodel_one_source "P1" MoreExamples.patch_one_source
           MoreExampleFacts.one_source_built MoreExampleFacts.one_source_patch).
Defined.

(** X21 on the catalog of one patch and one source. *)
Lemma X21_witness :
  let m := MoreExamples.skymodel_one_source in
  let src := MoreExamples.source_s1 in
  exists l,
    In l (tl (file_lines MoreExamples.catalog_one_source))
    /\ is_data_line l = true
    /\ item (items m) l "patch" = "P1"
    /\ item (items m) l "name" = "s1"
    /\ Num.float_of_string (item (items m) l "i") = Ok (brightness src)
    /\ (exists f,
          Num.float_of_string (item (items m) l "referencefrequency") = Ok f
          /\ reference_frequency src = PFloat f)
    /\ spectral_index src = item (items m) l "spectralindex"
    /\ parse_right_ascension (item (items m) l "ra") = Ok (ra src)
    /\ parse_declination (item (items m) l "dec") = Ok (dec src).
Proof.
  refine (X21_sources_are_read MoreExamples.catalog_one_source
            MoreExamples.skymodel_one_source "P1" "s1" MoreExamples.patch_one_source
            MoreExamples.source_s1
            MoreExampleFacts.one_source_built MoreExampleFacts.one_source_patch _).
  vm_compute. reflexivity.
Defined.
